(** * devtools/convert_state.py: old librarian state to new librarian.yaml

    A shallow embedding of [convert_library] and [main] of
    [src/devtools/convert_state.py], and the properties of the conversion.

    The two documents [main] obtains from [yaml.safe_load] are the inputs of
    the model.  Python values are the constructors of [value]; a Python
    exception is a [Raise] in the [result] type; the file and console effects
    of [main] are a list of [event]s. *)

From Stdlib Require Import ZArith List String Ascii Bool Lia Floats.SpecFloat.
From Stdlib Require Import Numbers.DecimalString.
From Stdlib Require Import Sorting.Permutation.
Import ListNotations.
Local Open Scope list_scope.
Local Open Scope string_scope.

(** ** Python values *)

(** What [yaml.safe_load] builds for the YAML core types: [None], [bool],
    [int], [float], [str], [list] and [dict]; timestamps, binary data and
    sets, which these documents do not hold, are left out.  A [dict] keeps
    its insertion order, so it is an association list; its keys are field
    names, each bound once ([lookup] takes the first binding).  A string is
    the sequence of its bytes in UTF-8: the separators the program cuts at
    are ASCII, so it cuts at the same places.  Values are told apart by
    their content: that two places of a loaded document may hold one and
    the same object is not modelled. *)
#[warnings="-register-all"]
Inductive value : Type :=
| VNone
| VBool (b : bool)
| VInt (z : Z)
| VFloat (f : spec_float)
| VStr (s : string)
| VList (l : list value)
| VDict (d : list (string * value)).

Inductive exn : Type :=
| KeyError (k : string)
| TypeError
| AttributeError.

Inductive result (A : Type) : Type :=
| Ok (a : A)
| Raise (e : exn).
Arguments Ok {A} a.
Arguments Raise {A} e.

Definition bind {A B} (r : result A) (k : A -> result B) : result B :=
  match r with
  | Ok a => k a
  | Raise e => Raise e
  end.

Notation "x <- r ;; k" := (bind r (fun x => k))
  (at level 61, r at next level, right associativity).

(** A [for] loop that builds a list with [append]: the first exception
    leaves the loop. *)
Fixpoint for_each {A B} (body : A -> result B) (xs : list A) : result (list B) :=
  match xs with
  | [] => Ok []
  | x :: xs' =>
      y <- body x ;;
      ys <- for_each body xs' ;;
      Ok (y :: ys)
  end.

(** [bool(v)] *)
Definition truthy (v : value) : bool :=
  match v with
  | VNone => false
  | VBool b => b
  | VInt z => negb (z =? 0)%Z
  | VFloat (S754_zero _) => false
  | VFloat _ => true
  | VStr s => negb (s =? "")
  | VList l => match l with [] => false | _ => true end
  | VDict d => match d with [] => false | _ => true end
  end.

(** *** Dictionaries *)

Fixpoint lookup (k : string) (d : list (string * value)) : option value :=
  match d with
  | [] => None
  | (k', v) :: d' => if k =? k' then Some v else lookup k d'
  end.

(** [d[k] = v]: an existing key keeps its place, a new key goes last. *)
Fixpoint dict_set (k : string) (v : value) (d : list (string * value))
  : list (string * value) :=
  match d with
  | [] => [(k, v)]
  | (k', v') :: d' =>
      if k =? k' then (k, v) :: d' else (k', v') :: dict_set k v d'
  end.

Definition keys (d : list (string * value)) : list string := map fst d.

(** [v[k]] for a string [k]: only a [dict] can be indexed by a string. *)
Definition getitem (v : value) (k : string) : result value :=
  match v with
  | VDict d =>
      match lookup k d with
      | Some x => Ok x
      | None => Raise (KeyError k)
      end
  | _ => Raise TypeError
  end.

(** [v.get(k, default)]: only a [dict] has the method. *)
Definition get_default (v : value) (k : string) (default : value) : result value :=
  match v with
  | VDict d =>
      match lookup k d with
      | Some x => Ok x
      | None => Ok default
      end
  | _ => Raise AttributeError
  end.

(** [v.get(k)] *)
Definition get (v : value) (k : string) : result value := get_default v k VNone.

Definition chars (s : string) : list value :=
  map (fun c => VStr (String c "")) (list_ascii_of_string s).

(** [for x in v]: a list gives its items, a dict its keys, a string its
    characters; nothing else is iterable. *)
Definition iterate (v : value) : result (list value) :=
  match v with
  | VList l => Ok l
  | VDict d => Ok (map VStr (keys d))
  | VStr s => Ok (chars s)
  | _ => Raise TypeError
  end.

(** *** Hashing: the members of a [set] *)

(** Python compares set members with [==] after hashing: [True == 1 == 1.0],
    so numbers are keyed by their value [m * 2^e] with [m] odd.  Every nan
    the loader builds is the one object [nan_value], found by identity. *)
Inductive key : Type :=
| KNone
| KStr (s : string)
| KNum (m e : Z)
| KInf (neg : bool)
| KNaN.

Fixpoint odd_part (p : positive) (e : Z) : positive * Z :=
  match p with
  | xO p' => odd_part p' (e + 1)%Z
  | _ => (p, e)
  end.

Definition num_key (neg : bool) (p : positive) (e : Z) : key :=
  let '(m, e') := odd_part p e in
  KNum (if neg then Zneg m else Zpos m) e'.

Definition int_key (z : Z) : key :=
  match z with
  | Z0 => KNum 0 0
  | Zpos p => num_key false p 0
  | Zneg p => num_key true p 0
  end.

(** [hash(v)]: lists and dicts are unhashable. *)
Definition hash_key (v : value) : result key :=
  match v with
  | VNone => Ok KNone
  | VBool b => Ok (int_key (if b then 1 else 0))
  | VInt z => Ok (int_key z)
  | VFloat (S754_zero _) => Ok (KNum 0 0)
  | VFloat (S754_infinity s) => Ok (KInf s)
  | VFloat S754_nan => Ok KNaN
  | VFloat (S754_finite s m e) => Ok (num_key s m e)
  | VStr s => Ok (KStr s)
  | VList _ | VDict _ => Raise TypeError
  end.

Definition key_eqb (a b : key) : bool :=
  match a, b with
  | KNone, KNone => true
  | KStr s, KStr t => s =? t
  | KNum m e, KNum m' e' => (m =? m')%Z && (e =? e')%Z
  | KInf s, KInf t => Bool.eqb s t
  | KNaN, KNaN => true
  | _, _ => false
  end.

Fixpoint mem_key (k : key) (s : list key) : bool :=
  match s with
  | [] => false
  | k' :: s' => key_eqb k k' || mem_key k s'
  end.

(** Two stores of one set: the same members, as many of them. *)
Definition same_set (a b : list key) : Prop :=
  (forall k, mem_key k a = mem_key k b) /\ List.length a = List.length b.

Section PySet.

(** The order in which a [set] stores its members depends on their hashes,
    and the hash of a string on the seed of the process.  [slot] stands
    for that: the place a new member takes among the present ones. *)
Variable slot : key -> list key -> nat.

Definition set_insert (k : key) (s : list key) : list key :=
  if mem_key k s then s
  else (firstn (slot k s) s ++ k :: skipn (slot k s) s)%list.

(** [s.add(v)] *)
Definition set_add (v : value) (s : list key) : result (list key) :=
  k <- hash_key v ;;
  Ok (set_insert k s).

End PySet.

(** [v in s] *)
Definition set_contains (v : value) (s : list key) : result bool :=
  k <- hash_key v ;;
  Ok (mem_key k s).

(** ** Strings *)

(** [needle in hay] *)
Fixpoint contains (needle hay : string) : bool :=
  match hay with
  | EmptyString => prefix needle hay
  | String _ hay' => prefix needle hay || contains needle hay'
  end.

(** [c in s] for one character. *)
Definition has (c : ascii) (s : string) : bool := contains (String c "") s.

(** [s.split(sep)] for a one-character separator: never empty. *)
Fixpoint split (sep : ascii) (s : string) : list string :=
  match s with
  | EmptyString => [EmptyString]
  | String c s' =>
      if Ascii.eqb c sep then EmptyString :: split sep s'
      else match split sep s' with
           | h :: t => String c h :: t
           | [] => [String c EmptyString]
           end
  end.

(** [s.rsplit(sep, 1)]: cut at the last separator, if there is one. *)
Fixpoint rsplit1 (sep : ascii) (s : string) : list string :=
  match s with
  | EmptyString => [EmptyString]
  | String c s' =>
      match rsplit1 sep s' with
      | [a; b] => [String c a; b]
      | _ => if Ascii.eqb c sep then [EmptyString; s'] else [String c s']
      end
  end.

(** [sep.join(parts)] *)
Fixpoint join (sep : string) (parts : list string) : string :=
  match parts with
  | [] => EmptyString
  | [p] => p
  | p :: ps => p ++ sep ++ join sep ps
  end.

(** [parts[0]], [parts[-1]] and [parts[:-1]] of a list of strings *)
Definition first_part (parts : list string) : string := hd EmptyString parts.
Definition last_part (parts : list string) : string := last parts EmptyString.
Definition but_last (parts : list string) : list string := removelast parts.

(** ** The library mapper *)

(** The body of the loop over [lib['apis']]. *)
Definition convert_api (api : value) : result value :=
  path <- getitem api "path" ;;
  let api_entry := [("path", path)] in
  service_config <- get api "service_config" ;;
  api_entry <-
    (if truthy service_config
     then v <- getitem api "service_config" ;;
          Ok (dict_set "service_config" v api_entry)
     else Ok api_entry) ;;
  Ok (VDict api_entry).

(** [convert_library(lib)]; the result is the new [dict]. *)
Definition convert_library (lib : value) : result (list (string * value)) :=
  name <- getitem lib "id" ;;
  version <- get lib "version" ;;
  let result := [("name", name); ("version", version)] in
  apis <- get lib "apis" ;;
  if truthy apis then
    apis <- getitem lib "apis" ;;
    items <- iterate apis ;;
    entries <- for_each convert_api items ;;
    let generate := [("apis", VList entries)] in
    preserve_regex <- get lib "preserve_regex" ;;
    generate <-
      (if truthy preserve_regex
       then v <- getitem lib "preserve_regex" ;;
            Ok (dict_set "keep" v generate)
       else Ok generate) ;;
    remove_regex <- get lib "remove_regex" ;;
    generate <-
      (if truthy remove_regex
       then v <- getitem lib "remove_regex" ;;
            Ok (dict_set "remove" v generate)
       else Ok generate) ;;
    Ok (dict_set "generate" (VDict generate) result)
  else Ok result.

(** *** Words for the records *)

(** A field of a record, when the value is a record. *)
Definition field (v : value) (k : string) : option value :=
  match v with
  | VDict d => lookup k d
  | _ => None
  end.

(** A field that is present and not empty. *)
Definition kept (o : option value) : option value :=
  match o with
  | Some v => if truthy v then Some v else None
  | None => None
  end.

(** What a [get] without default gives. *)
Definition or_none (o : option value) : value :=
  match o with
  | Some v => v
  | None => VNone
  end.

Definition with_field (k : string) (o : option value) (d : list (string * value))
  : list (string * value) :=
  match o with
  | Some v => dict_set k v d
  | None => d
  end.

(** An API descriptor of the old format: a record with a path. *)
Definition has_path (api : value) : bool :=
  match field api "path" with
  | Some _ => true
  | None => false
  end.

(** The API list of an old-format library record: absent, empty, or a list
    of API descriptors. *)
Definition apis_well_formed (lib : list (string * value)) : bool :=
  match kept (lookup "apis" lib) with
  | None => true
  | Some (VList apis) => forallb has_path apis
  | Some _ => false
  end.

(** ** The container reference *)

(** Lines 70 to 80 of [main] on a string [image_full]: the pair
    [(image, tag)]. *)
Definition parse_image (image_full : string) : string * string :=
  if contains "@sha256" image_full then
    let image_base := first_part (split "@" image_full) in
    let image :=
      if contains "/" image_base
      then join "/" (but_last (split "/" image_base))
      else image_base in
    let tag :=
      if contains ":" image_base
      then last_part (split ":" image_full)
      else "latest" in
    (image, tag)
  else
    let parts := rsplit1 ":" image_full in
    let image := if (1 <? List.length parts)%nat then nth 0 parts "" else image_full in
    let tag := if (1 <? List.length parts)%nat then nth 1 parts "" else "latest" in
    (image, tag).

(** The same lines on whatever [state.get('image', '')] gave.  On a list or
    a dict the test [in] is a membership test and the call of [split] or
    [rsplit] that follows has no such attribute; [None] and the numbers
    cannot stand on the right of [in]. *)
Definition parse_image_value (image_full : value) : result (string * string) :=
  match image_full with
  | VStr s => Ok (parse_image s)
  | VList _ | VDict _ => Raise AttributeError
  | VNone | VBool _ | VInt _ | VFloat _ => Raise TypeError
  end.

(** [image if '@' not in image else image.split('@')[0]] *)
Definition container_image (image : string) : string :=
  if negb (contains "@" image) then image else first_part (split "@" image).

(** ** Effects *)

(** The keyword arguments of [yaml.dump]. *)
Record dump_options : Type := {
  default_flow_style : bool;
  sort_keys : bool;
  allow_unicode : bool;
  width : nat
}.

Inductive event : Type :=
| Mkdir (path : string)
| OpenWrite (path : string)
| Dump (doc : value) (opts : dump_options)
| Close (path : string)
| Print (line : string).

(** A run: what it did, and how it ended.  The trace holds the steps of
    the write phase (lines 126 to 137) that were done.  These steps are
    taken in an environment in which they succeed: what [mkdir], [open],
    [yaml.dump] or [print] themselves may raise (a read-only directory, a
    document nested too deep for the dumper, a terminal that cannot encode
    the line) is not modelled, so a run here raises only in the conversion,
    before the write phase.  A theorem that speaks of a run that ends well
    speaks of a run whose write phase met no such failure. *)
Definition prog (A : Type) : Type := (list event * result A)%type.

Definition pure {A} (r : result A) : prog A := ([], r).

Definition emit (e : event) : prog unit := ([e], Ok tt).

Definition seq {A B} (p : prog A) (k : A -> prog B) : prog B :=
  match p with
  | (t, Ok a) => let '(t', r) := k a in ((t ++ t')%list, r)
  | (t, Raise e) => (t, Raise e)
  end.

Notation "x <~ p ;; k" := (seq p (fun x => k))
  (at level 61, p at next level, right associativity).
Notation "p ;;; k" := (seq p (fun _ => k))
  (at level 61, right associativity).

(** [str(n)] *)
Definition str_of_nat (n : nat) : string := NilZero.string_of_uint (Nat.to_uint n).

(** A loop that updates one variable. *)
Fixpoint for_fold {A S} (body : S -> A -> result S) (xs : list A) (s : S) : result S :=
  match xs with
  | [] => Ok s
  | x :: xs' =>
      s' <- body s x ;;
      for_fold body xs' s'
  end.

Definition output_path : string := "data/go/librarian.yaml".

Definition comment_text : string := "release_blocked: true (handwritten code)".

(** ** main *)

Section Main.

Variable slot : key -> list key -> nat.

(** Lines 62 to 66: the set [release_blocked]. *)
Definition release_blocked_step (release_blocked : list key) (lib : value)
  : result (list key) :=
  flag <- get lib "release_blocked" ;;
  if truthy flag then
    id <- getitem lib "id" ;;
    set_add slot id release_blocked
  else Ok release_blocked.

Definition release_blocked_ids (config : value) : result (list key) :=
  libraries <- get config "libraries" ;;
  if truthy libraries then
    libraries <- getitem config "libraries" ;;
    items <- iterate libraries ;;
    for_fold release_blocked_step items []
  else Ok [].

(** Lines 113 to 120: the body of the loop over the libraries. *)
Definition convert_entry (release_blocked : list key) (lib : value)
  : result (list (string * value)) :=
  converted <- convert_library lib ;;
  id <- getitem lib "id" ;;
  blocked <- set_contains id release_blocked ;;
  if blocked
  then Ok (dict_set "_comment" (VStr comment_text) converted)
  else Ok converted.

(** Lines 83 to 108: [output] before the libraries are converted. *)
Definition output_head (image : string) : list (string * value) :=
  let output := [("version", VStr "v0.5.0"); ("language", VStr "go")] in
  let output :=
    if truthy (VStr image)
    then dict_set "container"
           (VDict [("image", VStr (container_image image));
                   ("tag", VStr "latest")]) output
    else output in
  let output :=
    dict_set "generate"
      (VDict [("output_dir", VStr "./");
              ("defaults",
               VDict [("transport", VStr "grpc+rest");
                      ("rest_numeric_enums", VBool true);
                      ("release_level", VStr "stable")])]) output in
  dict_set "release" (VDict [("tag_format", VStr "{id}/v{version}")]) output.

Definition dump_opts : dump_options :=
  {| default_flow_style := false; sort_keys := false;
     allow_unicode := true; width := 120 |}.

(** [main()], from the two loaded documents on; the steps of the write
    phase succeed (see [prog]). *)
Definition main (state config : value) : prog unit :=
  release_blocked <~ pure (release_blocked_ids config) ;;
  image_full <~ pure (get_default state "image" (VStr "")) ;;
  parsed <~ pure (parse_image_value image_full) ;;
  let image := fst parsed in
  let output := output_head image in
  libs <~ pure (get_default state "libraries" (VList [])) ;;
  items <~ pure (iterate libs) ;;
  libraries <~ pure (for_each (convert_entry release_blocked) items) ;;
  let output := dict_set "libraries" (VList (map VDict libraries)) output in
  emit (Mkdir "data/go") ;;;
  emit (OpenWrite output_path) ;;;
  emit (Dump (VDict output) dump_opts) ;;;
  emit (Close output_path) ;;;
  emit (Print ("Converted " ++ str_of_nat (List.length libraries)
               ++ " libraries to " ++ output_path)) ;;;
  emit (Print ("Release-blocked libraries: "
               ++ str_of_nat (List.length release_blocked))).

End Main.

(** The steps of [main] that can raise, in their order: the set, the
    converted libraries and the assembled [output]. *)
Definition assemble (slot : key -> list key -> nat) (state config : value)
  : result (list key * list (list (string * value)) * list (string * value)) :=
  release_blocked <- release_blocked_ids slot config ;;
  image_full <- get_default state "image" (VStr "") ;;
  parsed <- parse_image_value image_full ;;
  libs <- get_default state "libraries" (VList []) ;;
  items <- iterate libs ;;
  libraries <- for_each (convert_entry release_blocked) items ;;
  Ok (release_blocked, libraries,
      dict_set "libraries" (VList (map VDict libraries)) (output_head (fst parsed))).

(** What a run that raises nothing does, in order. *)
Definition success_trace (output : list (string * value)) (converted blocked : nat)
  : list event :=
  [Mkdir "data/go";
   OpenWrite output_path;
   Dump (VDict output) dump_opts;
   Close output_path;
   Print ("Converted " ++ str_of_nat converted ++ " libraries to " ++ output_path);
   Print ("Release-blocked libraries: " ++ str_of_nat blocked)].

(** The order in which [yaml.dump] lists the items of a mapping: sorted by
    key when [sort_keys] is set, else as the [dict] holds them. *)
Fixpoint insert_key (k : string) (ks : list string) : list string :=
  match ks with
  | [] => [k]
  | k' :: ks' => if (k <=? k')%string then k :: ks else k' :: insert_key k ks'
  end.

Definition sorted_keys (ks : list string) : list string :=
  fold_right insert_key [] ks.

Definition dumped_key_order (opts : dump_options) (d : list (string * value))
  : list string :=
  if sort_keys opts then sorted_keys (keys d) else keys d.

(** ** Words for the documents *)

(** The entries of the state document's library list, as the loop of [main]
    meets them. *)
Definition state_libraries (state : value) : result (list value) :=
  libs <- get_default state "libraries" (VList []) ;;
  iterate libs.

Definition identifiers (items : list value) : list (option value) :=
  map (fun lib => field lib "id") items.

Definition names (libraries : list (list (string * value))) : list (option value) :=
  map (lookup "name") libraries.

(** The registry entry [entry] has a truthy [release_blocked] flag and an
    identifier that hashes to [k]. *)
Definition blocks (entry : value) (k : key) : Prop :=
  exists flag id,
    kept (field entry "release_blocked") = Some flag /\
    field entry "id" = Some id /\
    hash_key id = Ok k.

(** The config document's library list has an entry that blocks [k]. *)
Definition blocked_in (config : value) (k : key) : Prop :=
  exists libraries items entry,
    kept (field config "libraries") = Some libraries /\
    iterate libraries = Ok items /\
    In entry items /\
    blocks entry k.

(** The stored registry list [entries] has a mapping with a truthy
    [release_blocked] whose identifier is the string [id]. *)
Definition listed_blocked (entries : list value) (id : string) : Prop :=
  exists entry flag,
    In (VDict entry) entries /\
    lookup "release_blocked" entry = Some flag /\
    truthy flag = true /\
    lookup "id" entry = Some (VStr id).

Section Serialization.

(** [yaml.dump] as a function of the document and the keyword arguments. *)
Variable serialize : dump_options -> value -> string.

(** What a run wrote to the output file. *)
Definition written_bytes (t : list event) : list string :=
  flat_map (fun e => match e with
                     | Dump doc opts => [serialize opts doc]
                     | _ => []
                     end) t.

End Serialization.

(** ** Words for the shapes of values *)

Definition is_mapping (v : value) : bool :=
  match v with
  | VDict _ => true
  | _ => false
  end.

Definition is_string (v : value) : bool :=
  match v with
  | VStr _ => true
  | _ => false
  end.

(** [hash(v)] does not raise. *)
Definition hashable (v : value) : bool :=
  match v with
  | VList _ | VDict _ => false
  | _ => true
  end.

(** A registry entry the first loop of [main] gets past: a mapping, and if
    its [release_blocked] is truthy, one with a hashable identifier. *)
Definition entry_ok (entry : value) : bool :=
  match entry with
  | VDict d =>
      match kept (lookup "release_blocked" d) with
      | None => true
      | Some _ =>
          match lookup "id" d with
          | Some id => hashable id
          | None => false
          end
      end
  | _ => false
  end.

(** The exception lines 70 to 80 raise on an image reference that is no
    string. *)
Definition image_error (v : value) : exn :=
  match v with
  | VList _ | VDict _ => AttributeError
  | _ => TypeError
  end.

(** The keys a section has when the optional ones are present. *)
Definition optional_key (k : string) (o : option value) : list string :=
  match o with
  | Some _ => [k]
  | None => []
  end.

(** ** Sample documents *)

Definition slot0 : key -> list key -> nat := fun _ _ => 0%nat.

Definition sample_api : value :=
  VDict [("path", VStr "google/cloud/asset/v1");
         ("service_config", VStr "cloudasset_v1.yaml")].

Definition sample_library : list (string * value) :=
  [("id", VStr "asset"); ("version", VStr "1.22.0");
   ("apis", VList [sample_api]);
   ("preserve_regex", VList [VStr "asset/apiv1/doc.go"]);
   ("remove_regex", VList [])].

Definition sample_bare : list (string * value) := [("id", VStr "auth")].

Definition sample_state : value :=
  VDict [("image", VStr "gcr.io/foo/bar:v2");
         ("libraries", VList [VDict sample_library; VDict sample_bare])].

Definition sample_config : value :=
  VDict [("libraries",
          VList [VDict [("id", VStr "auth"); ("release_blocked", VBool true)];
                 VDict [("id", VStr "vertexai"); ("release_blocked", VBool true)];
                 VDict [("id", VStr "asset")]])].

(** The sample library with the fields the new format drops. *)
Definition sample_library_full : list (string * value) :=
  (sample_library
   ++ [("source_roots", VList [VStr "asset"]);
       ("last_generated_commit", VStr "8f1e2d3c");
       ("tag_format", VStr "{id}/v{version}");
       ("release_exclude_paths", VList [VStr "internal/generated/snippets"])])%list.

(** A registry that lists one identifier twice. *)
Definition sample_config_twice : value :=
  VDict [("libraries",
          VList [VDict [("id", VStr "auth"); ("release_blocked", VBool true)];
                 VDict [("id", VStr "asset"); ("release_blocked", VBool false)];
                 VDict [("id", VStr "auth"); ("release_blocked", VBool true)];
                 VDict [("release_blocked", VNone)]])].

(** * Properties *)

(** ** The monads *)

Lemma bind_Ok {A B} (r : result A) (k : A -> result B) (b : B) :
  bind r k = Ok b -> exists a, r = Ok a /\ k a = Ok b.
Proof.
  destruct r as [a|e]; simpl; intros H; [eauto | discriminate].
Qed.

Lemma for_each_length {A B} (body : A -> result B) xs ys :
  for_each body xs = Ok ys -> List.length ys = List.length xs.
Proof.
  revert ys; induction xs as [|x xs IH]; simpl; intros ys H.
  - injection H as <-; reflexivity.
  - apply bind_Ok in H as (y & _ & H).
    apply bind_Ok in H as (ys' & Hys & H).
    injection H as <-; simpl; f_equal; auto.
Qed.

Lemma for_each_Forall2 {A B} (body : A -> result B) xs ys :
  for_each body xs = Ok ys -> Forall2 (fun x y => body x = Ok y) xs ys.
Proof.
  revert ys; induction xs as [|x xs IH]; simpl; intros ys H.
  - injection H as <-; constructor.
  - apply bind_Ok in H as (y & Hy & H).
    apply bind_Ok in H as (ys' & Hys & H).
    injection H as <-; constructor; auto.
Qed.

(** The first item on which the body raises ends the loop with that
    exception. *)
Lemma for_each_raises {A B} (body : A -> result B) pre x post e :
  Forall (fun a => exists y, body a = Ok y) pre ->
  body x = Raise e ->
  for_each body (pre ++ x :: post)%list = Raise e.
Proof.
  intros Hpre Hx; induction Hpre as [|a pre (y & Hy) _ IH]; simpl.
  - rewrite Hx; reflexivity.
  - rewrite Hy, IH; reflexivity.
Qed.

Lemma for_each_In_raises {A B} (body : A -> result B) xs x e :
  In x xs -> body x = Raise e -> exists e', for_each body xs = Raise e'.
Proof.
  induction xs as [|a xs IH]; simpl; [tauto|].
  intros [->|Hin] Hx.
  - rewrite Hx; simpl; eauto.
  - destruct (body a) as [y|e0]; simpl; [|eauto].
    destruct (IH Hin Hx) as (e' & ->); simpl; eauto.
Qed.

(** [main] raises where [assemble] does, having done nothing; otherwise it
    writes the assembled document and prints the two counts. *)
Lemma main_assemble slot state config :
  main slot state config =
  match assemble slot state config with
  | Ok (release_blocked, libraries, output) =>
      (success_trace output (List.length libraries) (List.length release_blocked),
       Ok tt)
  | Raise e => ([], Raise e)
  end.
Proof.
  unfold main, assemble.
  destruct (release_blocked_ids slot config) as [rb|e]; simpl; [|reflexivity].
  destruct (get_default state "image" (VStr "")) as [image_full|e]; simpl;
    [|reflexivity].
  destruct (parse_image_value image_full) as [parsed|e]; simpl; [|reflexivity].
  destruct (get_default state "libraries" (VList [])) as [libs|e]; simpl;
    [|reflexivity].
  destruct (iterate libs) as [items|e]; simpl; [|reflexivity].
  destruct (for_each (convert_entry rb) items) as [libraries|e]; simpl;
    reflexivity.
Qed.

Lemma main_completes slot state config t :
  main slot state config = (t, Ok tt) ->
  exists release_blocked libraries output,
    assemble slot state config = Ok (release_blocked, libraries, output) /\
    t = success_trace output (List.length libraries) (List.length release_blocked).
Proof.
  rewrite main_assemble.
  destruct (assemble slot state config) as [[[rb libraries] output]|e];
    intros H; inversion H; eauto.
Qed.

(** ** Strings *)

Lemma append_assoc (s t u : string) : (s ++ t) ++ u = s ++ (t ++ u).
Proof. induction s as [|c s IH]; simpl; [|rewrite IH]; reflexivity. Qed.

Lemma prefix_empty s : prefix "" s = true.
Proof. destruct s; reflexivity. Qed.

Lemma has_cons c a s : has c (String a s) = Ascii.eqb a c || has c s.
Proof.
  unfold has; simpl. destruct (ascii_dec c a) as [->|Hne].
  - rewrite Ascii.eqb_refl, prefix_empty; reflexivity.
  - destruct (Ascii.eqb_spec a c) as [->|_]; [contradiction | reflexivity].
Qed.

Lemma has_app c s t : has c (s ++ t) = has c s || has c t.
Proof.
  induction s as [|a s IH].
  - reflexivity.
  - change (String a s ++ t) with (String a (s ++ t)).
    rewrite !has_cons, IH, orb_assoc; reflexivity.
Qed.

(** A string that contains [c :: n] contains [c]. *)
Lemma contains_has c n s : contains (String c n) s = true -> has c s = true.
Proof.
  induction s as [|a s IH]; [discriminate|].
  intros H. rewrite has_cons. fold (has c s) in IH.
  change (contains (String c n) (String a s))
    with (prefix (String c n) (String a s) || contains (String c n) s) in H.
  apply orb_true_iff in H as [H|H].
  - simpl in H. destruct (ascii_dec c a) as [->|]; [|discriminate].
    rewrite Ascii.eqb_refl; reflexivity.
  - rewrite (IH H), orb_true_r; reflexivity.
Qed.

Lemma split_not_nil sep s : split sep s <> [].
Proof.
  destruct s as [|c s]; simpl; [discriminate|].
  destruct (Ascii.eqb c sep); [discriminate|].
  destruct (split sep s); discriminate.
Qed.

Lemma split_without sep s : has sep s = false -> split sep s = [s].
Proof.
  induction s as [|c s IH]; [reflexivity|].
  rewrite has_cons; intros H; apply orb_false_iff in H as [Hc Hs].
  simpl; rewrite Hc, (IH Hs); reflexivity.
Qed.

(** [s.split(sep)[0]] is what stands before the first [sep]. *)
Lemma split_first sep s :
  has sep s = true ->
  exists rest,
    s = first_part (split sep s) ++ String sep rest /\
    has sep (first_part (split sep s)) = false.
Proof.
  induction s as [|c s IH]; [discriminate|].
  rewrite has_cons; intros H. simpl.
  destruct (Ascii.eqb_spec c sep) as [->|Hne].
  - exists s; split; reflexivity.
  - destruct (IH H) as (rest & Heq & Hno).
    destruct (split sep s) as [|h t] eqn:E; [now apply split_not_nil in E|].
    exists rest; simpl in *; split.
    + rewrite Heq at 1; reflexivity.
    + rewrite has_cons, Hno.
      destruct (Ascii.eqb_spec c sep); [contradiction | reflexivity].
Qed.

Lemma join_cons_char sep c h t :
  join sep (String c h :: t) = String c (join sep (h :: t)).
Proof. destruct t; reflexivity. Qed.

Lemma join_split sep s : join (String sep "") (split sep s) = s.
Proof.
  induction s as [|c s IH]; [reflexivity|].
  simpl split. destruct (Ascii.eqb_spec c sep) as [->|_].
  - destruct (split sep s) as [|h t] eqn:E; [now apply split_not_nil in E|].
    change (join (String sep "") ("" :: h :: t))
      with (String sep (join (String sep "") (h :: t))).
    rewrite IH; reflexivity.
  - destruct (split sep s) as [|h t] eqn:E; [now apply split_not_nil in E|].
    rewrite join_cons_char, IH; reflexivity.
Qed.

Lemma split_last_without sep s : has sep (last_part (split sep s)) = false.
Proof.
  unfold last_part.
  induction s as [|c s IH]; [reflexivity|].
  simpl split. destruct (Ascii.eqb_spec c sep) as [->|Hne].
  - destruct (split sep s) as [|h t] eqn:E; [now apply split_not_nil in E|].
    exact IH.
  - destruct (split sep s) as [|h t] eqn:E; [now apply split_not_nil in E|].
    destruct t as [|h' t].
    + simpl in *. rewrite has_cons, IH.
      destruct (Ascii.eqb_spec c sep); [contradiction | reflexivity].
    + exact IH.
Qed.

Lemma split_two sep s :
  has sep s = true -> exists a b l, split sep s = a :: b :: l.
Proof.
  induction s as [|c s IH]; [discriminate|].
  rewrite has_cons; intros H. simpl.
  destruct (Ascii.eqb_spec c sep) as [->|Hne].
  - destruct (split sep s) as [|h t] eqn:E; [now apply split_not_nil in E|].
    eauto.
  - destruct (IH H) as (a & b & l & ->); eauto.
Qed.

Lemma join_but_last sep a b l :
  join sep (a :: b :: l) =
  join sep (but_last (a :: b :: l)) ++ sep ++ last_part (a :: b :: l).
Proof.
  unfold but_last, last_part.
  revert a b; induction l as [|c l IH]; intros a b.
  - reflexivity.
  - change (join sep (a :: b :: c :: l)) with (a ++ sep ++ join sep (b :: c :: l)).
    rewrite IH.
    change (removelast (a :: b :: c :: l)) with (a :: removelast (b :: c :: l)).
    change (last (a :: b :: c :: l) "") with (last (b :: c :: l) "").
    destruct (removelast (b :: c :: l)) as [|x r] eqn:E; [discriminate E|].
    change (join sep (a :: x :: r)) with (a ++ sep ++ join sep (x :: r)).
    rewrite !append_assoc; reflexivity.
Qed.

(** A string with a [sep] is what stands before its last [sep], the [sep],
    and the last part, which has none. *)
Lemma split_at_last sep s :
  has sep s = true ->
  s = join (String sep "") (but_last (split sep s))
      ++ String sep (last_part (split sep s)).
Proof.
  intros H. destruct (split_two sep s H) as (a & b & l & E).
  rewrite <- (join_split sep s) at 1.
  rewrite E, join_but_last; reflexivity.
Qed.

Lemma rsplit1_without sep s : has sep s = false -> rsplit1 sep s = [s].
Proof.
  induction s as [|c s IH]; [reflexivity|].
  rewrite has_cons; intros H; apply orb_false_iff in H as [Hc Hs].
  simpl; rewrite (IH Hs), Hc; reflexivity.
Qed.

Lemma rsplit1_with sep s :
  has sep s = true ->
  exists a b, rsplit1 sep s = [a; b] /\ s = a ++ String sep b /\ has sep b = false.
Proof.
  induction s as [|c s IH]; [discriminate|].
  rewrite has_cons; intros H.
  destruct (has sep s) eqn:Hs.
  - destruct (IH eq_refl) as (a & b & E & Heq & Hb).
    exists (String c a), b; simpl; rewrite E; repeat split; auto.
    rewrite Heq at 1; reflexivity.
  - rewrite orb_false_r in H.
    simpl; rewrite (rsplit1_without sep s Hs), H.
    apply Ascii.eqb_eq in H as ->.
    exists "", s; repeat split; auto.
Qed.

(** ** Dictionaries and the assembled document *)

Lemma lookup_dict_set k k' v d :
  lookup k (dict_set k' v d) = if k =? k' then Some v else lookup k d.
Proof.
  induction d as [|[k0 v0] d IH]; simpl.
  - destruct (k =? k'); reflexivity.
  - destruct (String.eqb_spec k' k0) as [->|Hne]; simpl.
    + destruct (k =? k0); reflexivity.
    + rewrite IH.
      destruct (String.eqb_spec k k0) as [->|]; [|reflexivity].
      destruct (String.eqb_spec k0 k') as [->|]; [contradiction | reflexivity].
Qed.

Lemma truthy_str s : truthy (VStr s) = true <-> s <> "".
Proof.
  simpl. destruct (String.eqb_spec s ""); simpl; split; congruence.
Qed.

Lemma assemble_Ok slot state config release_blocked libraries output :
  assemble slot state config = Ok (release_blocked, libraries, output) ->
  exists image_full parsed libs items,
    release_blocked_ids slot config = Ok release_blocked /\
    get_default state "image" (VStr "") = Ok image_full /\
    parse_image_value image_full = Ok parsed /\
    get_default state "libraries" (VList []) = Ok libs /\
    iterate libs = Ok items /\
    for_each (convert_entry release_blocked) items = Ok libraries /\
    output = dict_set "libraries" (VList (map VDict libraries))
               (output_head (fst parsed)).
Proof.
  unfold assemble; intros H.
  apply bind_Ok in H as (rb & Hrb & H).
  apply bind_Ok in H as (image_full & Himg & H).
  apply bind_Ok in H as (parsed & Hparsed & H).
  apply bind_Ok in H as (libs & Hlibs & H).
  apply bind_Ok in H as (items & Hitems & H).
  apply bind_Ok in H as (libs' & Hfor & H).
  injection H as <- <- <-.
  exists image_full, parsed, libs, items; repeat split; assumption.
Qed.

Lemma parse_image_value_Ok image_full parsed :
  parse_image_value image_full = Ok parsed ->
  exists s, image_full = VStr s /\ parsed = parse_image s.
Proof.
  destruct image_full; simpl; intros H; try discriminate.
  injection H as <-; eauto.
Qed.

Lemma output_container image libraries :
  lookup "container" (dict_set "libraries" libraries (output_head image)) =
  if truthy (VStr image)
  then Some (VDict [("image", VStr (container_image image));
                    ("tag", VStr "latest")])
  else None.
Proof.
  unfold output_head. destruct (truthy (VStr image)); reflexivity.
Qed.

Lemma output_keys image libraries :
  keys (dict_set "libraries" libraries (output_head image)) =
  (["version"; "language"]
     ++ (if truthy (VStr image) then ["container"] else [])
     ++ ["generate"; "release"; "libraries"])%list.
Proof.
  unfold output_head. destruct (truthy (VStr image)); reflexivity.
Qed.

Lemma output_libraries image libraries :
  lookup "libraries" (dict_set "libraries" libraries (output_head image)) =
  Some libraries.
Proof.
  rewrite lookup_dict_set; reflexivity.
Qed.

(** A run that ends well read a string as image reference and wrote, once,
    the document built from its parsed image. *)
Lemma main_written slot state config t :
  main slot state config = (t, Ok tt) ->
  exists release_blocked items libraries image_full,
    release_blocked_ids slot config = Ok release_blocked /\
    get_default state "image" (VStr "") = Ok (VStr image_full) /\
    (exists libs, get_default state "libraries" (VList []) = Ok libs /\
                  iterate libs = Ok items) /\
    for_each (convert_entry release_blocked) items = Ok libraries /\
    t = success_trace
          (dict_set "libraries" (VList (map VDict libraries))
             (output_head (fst (parse_image image_full))))
          (List.length libraries) (List.length release_blocked).
Proof.
  intros H. apply main_completes in H as (rb & libraries & output & Ha & ->).
  apply assemble_Ok in Ha
    as (image_full & parsed & libs & items & Hrb & Hi & Hp & Hl & Hit & Hf & ->).
  apply parse_image_value_Ok in Hp as (s & -> & ->).
  exists rb, items, libraries, s; repeat split; eauto.
Qed.

(** ** The container reference *)

Lemma parse_image_digest image_full :
  contains "@sha256" image_full = true ->
  parse_image image_full =
  let image_base := first_part (split "@" image_full) in
  (if has "/" image_base then join "/" (but_last (split "/" image_base))
   else image_base,
   if has ":" image_base then last_part (split ":" image_full) else "latest").
Proof.
  intros H; unfold parse_image; rewrite H; reflexivity.
Qed.

Lemma parse_image_plain image_full :
  contains "@sha256" image_full = false ->
  parse_image image_full =
  let parts := rsplit1 ":" image_full in
  (if (1 <? List.length parts)%nat then nth 0 parts "" else image_full,
   if (1 <? List.length parts)%nat then nth 1 parts "" else "latest").
Proof.
  intros H; unfold parse_image; rewrite H; reflexivity.
Qed.

(** C4, as amended.  A run that ends well has read a string as image
    reference.  When the image parsed from it is not empty the written
    document has a container section, which holds the image and the tag
    ["latest"] and nothing else, on either branch of the parser and whatever
    tag the parser computed; when the parsed image is empty the document has
    no container section. *)
Theorem container_tag_latest slot state config t :
  main slot state config = (t, Ok tt) ->
  exists image_full out n m,
    get_default state "image" (VStr "") = Ok (VStr image_full) /\
    t = success_trace out n m /\
    (fst (parse_image image_full) <> "" ->
     lookup "container" out =
     Some (VDict [("image", VStr (container_image (fst (parse_image image_full))));
                  ("tag", VStr "latest")])) /\
    (fst (parse_image image_full) = "" -> lookup "container" out = None).
Proof.
  intros H.
  apply main_written in H as (rb & items & libraries & s & _ & Hs & _ & _ & ->).
  exists s; eexists; eexists; eexists; split; [exact Hs|].
  split; [reflexivity|].
  rewrite output_container.
  split; intros Hi.
  - apply truthy_str in Hi; rewrite Hi; reflexivity.
  - rewrite Hi; reflexivity.
Qed.

Lemma container_tag_latest_witness :
  main slot0 sample_state sample_config
  = (fst (main slot0 sample_state sample_config), Ok tt) /\
  exists image_full out n m,
    get_default sample_state "image" (VStr "") = Ok (VStr image_full) /\
    fst (main slot0 sample_state sample_config) = success_trace out n m /\
    (fst (parse_image image_full) <> "" ->
     lookup "container" out =
     Some (VDict [("image", VStr (container_image (fst (parse_image image_full))));
                  ("tag", VStr "latest")])) /\
    (fst (parse_image image_full) = "" -> lookup "container" out = None).
Proof.
  split; [vm_compute; reflexivity|].
  apply (container_tag_latest slot0 sample_state sample_config).
  vm_compute; reflexivity.
Defined.

(** C4 as stated fails: the reference [":v2"] is not empty, its parsed
    image is, and the written document has no container section at all. *)
Lemma container_absent_for_nonempty_reference :
  exists t out n m,
    main slot0 (VDict [("image", VStr ":v2")]) (VDict []) = (t, Ok tt) /\
    ":v2" <> "" /\
    t = success_trace out n m /\
    lookup "container" out = None.
Proof.
  exists (success_trace
            (dict_set "libraries" (VList []) (output_head "")) 0 0).
  exists (dict_set "libraries" (VList []) (output_head "")), 0%nat, 0%nat.
  split; [vm_compute; reflexivity|].
  split; [discriminate|].
  split; reflexivity.
Qed.

(** C5, as amended.  A reference with the digest marker is cut at its first
    ["@"]; the image is the part before it without its last path segment
    when that part has a ["/"], and that part otherwise; the tag is the last
    [":"]-segment of the whole reference when the part before the ["@"] has
    a [":"], and ["latest"] otherwise. *)
Theorem digest_reference image_full :
  contains "@sha256" image_full = true ->
  exists image_base rest,
    image_full = image_base ++ "@" ++ rest /\
    has "@" image_base = false /\
    (has "/" image_base = true ->
     exists segment,
       image_base = fst (parse_image image_full) ++ "/" ++ segment /\
       has "/" segment = false) /\
    (has "/" image_base = false -> fst (parse_image image_full) = image_base) /\
    (has ":" image_base = true ->
     exists before,
       image_full = before ++ ":" ++ snd (parse_image image_full) /\
       has ":" (snd (parse_image image_full)) = false) /\
    (has ":" image_base = false -> snd (parse_image image_full) = "latest").
Proof.
  intros Hd. rewrite (parse_image_digest _ Hd); cbv zeta.
  destruct (split_first "@" image_full (contains_has _ _ _ Hd))
    as (rest & Heq & Hno).
  set (image_base := first_part (split "@" image_full)) in *.
  exists image_base, rest.
  split; [exact Heq|]. split; [exact Hno|].
  split; [|split; [|split]]; intros H; rewrite H; simpl fst; simpl snd.
  - exists (last_part (split "/" image_base)); split.
    + apply (split_at_last "/" image_base H).
    + apply split_last_without.
  - reflexivity.
  - exists (join ":" (but_last (split ":" image_full))); split.
    + apply (split_at_last ":" image_full).
      rewrite Heq, has_app, H; reflexivity.
    + apply split_last_without.
  - reflexivity.
Qed.

Lemma digest_reference_witness :
  exists image_base rest,
    "gcr.io/foo/bar:v1@sha256:abcd" = image_base ++ "@" ++ rest /\
    has "@" image_base = false /\
    (has "/" image_base = true ->
     exists segment,
       image_base
       = fst (parse_image "gcr.io/foo/bar:v1@sha256:abcd") ++ "/" ++ segment /\
       has "/" segment = false) /\
    (has "/" image_base = false ->
     fst (parse_image "gcr.io/foo/bar:v1@sha256:abcd") = image_base) /\
    (has ":" image_base = true ->
     exists before,
       "gcr.io/foo/bar:v1@sha256:abcd"
       = before ++ ":" ++ snd (parse_image "gcr.io/foo/bar:v1@sha256:abcd") /\
       has ":" (snd (parse_image "gcr.io/foo/bar:v1@sha256:abcd")) = false) /\
    (has ":" image_base = false ->
     snd (parse_image "gcr.io/foo/bar:v1@sha256:abcd") = "latest").
Proof.
  apply (digest_reference "gcr.io/foo/bar:v1@sha256:abcd"). reflexivity.
Defined.

(** C5 as stated fails: before the ["@"] of this reference stands the tag
    ["v1"], and the parser's tag is the digest ["abcd"]. *)
Lemma digest_tag_is_not_the_tag_before_at :
  contains "@sha256" "gcr.io/foo/bar:v1@sha256:abcd" = true /\
  first_part (split "@" "gcr.io/foo/bar:v1@sha256:abcd") = "gcr.io/foo/bar:v1" /\
  last_part (split ":" "gcr.io/foo/bar:v1") = "v1" /\
  snd (parse_image "gcr.io/foo/bar:v1@sha256:abcd") = "abcd" /\
  snd (parse_image "gcr.io/foo/bar:v1@sha256:abcd")
  <> last_part (split ":" (first_part (split "@" "gcr.io/foo/bar:v1@sha256:abcd"))).
Proof.
  repeat split; try reflexivity. vm_compute; discriminate.
Qed.

(** C6.  A reference without the digest marker is cut at its last [":"]:
    when it has one, the image is what stands before it and the tag what
    stands after it; when it has none, the image is the whole reference and
    the tag is ["latest"].  So ["gcr.io/foo/bar:v2"] parses to the image
    ["gcr.io/foo/bar"], and a run on a state document with that reference
    writes a container section with that image and the tag ["latest"]. *)
Theorem plain_reference :
  (forall image_full,
     contains "@sha256" image_full = false ->
     (has ":" image_full = true ->
      exists image tag,
        parse_image image_full = (image, tag) /\
        image_full = image ++ ":" ++ tag /\
        has ":" tag = false) /\
     (has ":" image_full = false ->
      parse_image image_full = (image_full, "latest"))) /\
  parse_image "gcr.io/foo/bar:v2" = ("gcr.io/foo/bar", "v2") /\
  (forall slot state config t,
     lookup "image" state = Some (VStr "gcr.io/foo/bar:v2") ->
     main slot (VDict state) config = (t, Ok tt) ->
     exists out n m,
       t = success_trace out n m /\
       lookup "container" out =
       Some (VDict [("image", VStr "gcr.io/foo/bar"); ("tag", VStr "latest")])).
Proof.
  split; [|split; [reflexivity|]].
  - intros image_full Hd. rewrite (parse_image_plain _ Hd); cbv zeta.
    split; intros H.
    + destruct (rsplit1_with ":" image_full H) as (a & b & -> & Heq & Hb).
      exists a, b; repeat split; assumption.
    + rewrite (rsplit1_without ":" image_full H); reflexivity.
  - intros slot state config t Hi H.
    apply main_written in H as (rb & items & libraries & s & _ & Hs & _ & _ & ->).
    simpl in Hs; rewrite Hi in Hs; injection Hs as <-.
    eexists; eexists; eexists; split; [reflexivity|].
    rewrite output_container; reflexivity.
Qed.

Lemma plain_reference_witness :
  (has ":" "gcr.io/foo/bar:v2" = true ->
   exists image tag,
     parse_image "gcr.io/foo/bar:v2" = (image, tag) /\
     "gcr.io/foo/bar:v2" = image ++ ":" ++ tag /\
     has ":" tag = false) /\
  (has ":" "gcr.io/foo/bar" = false ->
   parse_image "gcr.io/foo/bar" = ("gcr.io/foo/bar", "latest")) /\
  exists out n m,
    fst (main slot0 sample_state sample_config) = success_trace out n m /\
    lookup "container" out =
    Some (VDict [("image", VStr "gcr.io/foo/bar"); ("tag", VStr "latest")]).
Proof.
  destruct plain_reference as (Hparse & _ & Hrun).
  split; [|split].
  - apply (Hparse "gcr.io/foo/bar:v2"); reflexivity.
  - apply (Hparse "gcr.io/foo/bar"); reflexivity.
  - apply (Hrun slot0
             [("image", VStr "gcr.io/foo/bar:v2");
              ("libraries", VList [VDict sample_library; VDict sample_bare])]
             sample_config).
    + reflexivity.
    + vm_compute; reflexivity.
Defined.

(** ** The library mapper *)

Lemma convert_api_record d path :
  lookup "path" d = Some path ->
  convert_api (VDict d) =
  Ok (VDict (with_field "service_config" (kept (lookup "service_config" d))
               [("path", path)])).
Proof.
  intros Hp. unfold convert_api, get; simpl. rewrite Hp; simpl.
  destruct (lookup "service_config" d) as [v|]; simpl; [|reflexivity].
  destruct (truthy v); reflexivity.
Qed.

Lemma convert_apis apis :
  forallb has_path apis = true ->
  exists entries,
    for_each convert_api apis = Ok entries /\
    Forall2 (fun api entry =>
               field entry "path" = field api "path" /\
               field entry "service_config" = kept (field api "service_config"))
            apis entries.
Proof.
  induction apis as [|api apis IH]; simpl; intros H.
  - exists []; split; [reflexivity | constructor].
  - apply andb_true_iff in H as [Ha Hr].
    destruct (IH Hr) as (entries & -> & HF).
    unfold has_path in Ha.
    destruct api as [| | | | | |d]; simpl in Ha; try discriminate.
    destruct (lookup "path" d) as [path|] eqn:Hp; [|discriminate].
    rewrite (convert_api_record d path Hp); simpl.
    eexists; split; [reflexivity|].
    constructor; [|exact HF].
    simpl. destruct (kept (lookup "service_config" d)) as [v|]; simpl; auto.
Qed.

(** A record with an identifier and no API to convert. *)
Lemma convert_library_plain lib id :
  lookup "id" lib = Some id ->
  kept (lookup "apis" lib) = None ->
  convert_library (VDict lib) =
  Ok [("name", id); ("version", or_none (lookup "version" lib))].
Proof.
  intros Hid Ha. unfold convert_library, get; simpl. rewrite Hid; simpl.
  destruct (lookup "version" lib) as [version|]; simpl;
    (destruct (lookup "apis" lib) as [apis|]; simpl in *;
     [destruct (truthy apis); [discriminate | reflexivity] | reflexivity]).
Qed.

(** A record with an identifier and a list of APIs that convert. *)
Lemma convert_library_generate lib id apis entries :
  lookup "id" lib = Some id ->
  lookup "apis" lib = Some (VList apis) ->
  apis <> [] ->
  for_each convert_api apis = Ok entries ->
  convert_library (VDict lib) =
  Ok [("name", id); ("version", or_none (lookup "version" lib));
      ("generate",
       VDict (with_field "remove" (kept (lookup "remove_regex" lib))
                (with_field "keep" (kept (lookup "preserve_regex" lib))
                   [("apis", VList entries)])))].
Proof.
  intros Hid Ha Hne Hfor.
  assert (Ht : truthy (VList apis) = true)
    by (destruct apis; [contradiction | reflexivity]).
  unfold convert_library, get; cbn -[for_each truthy].
  rewrite Hid, Ha; cbn -[for_each truthy].
  destruct (lookup "version" lib) as [version|]; cbn -[for_each truthy];
    rewrite Ht, Hfor; cbn -[truthy];
    (destruct (lookup "preserve_regex" lib) as [p|]; cbn -[truthy];
     [destruct (truthy p); cbn -[truthy]|]);
    (destruct (lookup "remove_regex" lib) as [r|]; cbn -[truthy];
     [destruct (truthy r); cbn -[truthy]|]); reflexivity.
Qed.

Lemma convert_library_no_id lib :
  lookup "id" lib = None -> convert_library (VDict lib) = Raise (KeyError "id").
Proof.
  intros H. unfold convert_library; simpl. rewrite H; reflexivity.
Qed.

Lemma lookup_with_field k k' o d :
  lookup k (with_field k' o d) =
  if k =? k' then match o with Some v => Some v | None => lookup k d end
  else lookup k d.
Proof.
  destruct o as [v|]; simpl.
  - apply lookup_dict_set.
  - destruct (String.eqb_spec k k') as [->|]; reflexivity.
Qed.

(** A record with an identifier and a well-formed API list converts. *)
Lemma convert_library_total lib id :
  lookup "id" lib = Some id ->
  apis_well_formed lib = true ->
  exists r,
    convert_library (VDict lib) = Ok r /\
    lookup "name" r = Some id /\
    lookup "version" r = Some (or_none (lookup "version" lib)).
Proof.
  intros Hid Hwf. unfold apis_well_formed in Hwf.
  destruct (kept (lookup "apis" lib)) as [v|] eqn:Hk.
  - destruct v as [| | | | |apis|]; try discriminate.
    destruct (convert_apis apis Hwf) as (entries & Hfor & _).
    assert (Ha : lookup "apis" lib = Some (VList apis) /\ apis <> []).
    { destruct (lookup "apis" lib) as [a|]; simpl in Hk; [|discriminate].
      destruct (truthy a) eqn:Ht; [|discriminate].
      injection Hk as ->. split; [reflexivity|].
      intros ->; discriminate. }
    destruct Ha as [Ha Hne].
    rewrite (convert_library_generate lib id apis entries Hid Ha Hne Hfor).
    eexists; split; [reflexivity|]; split; reflexivity.
  - rewrite (convert_library_plain lib id Hid Hk).
    eexists; split; [reflexivity|]; split; reflexivity.
Qed.

(** C2.  An old-format library record with a non-empty API list converts to
    a record with a generate section; its API entries follow the input list
    one for one, in order, each with the path of its API and with
    [service_config] exactly when the API has one that is not empty; the
    section has [keep] exactly when the record's [preserve_regex] is present
    and not empty, and [remove] exactly when its [remove_regex] is.  A
    record whose API list is empty or missing converts to a record without
    generate section. *)
Theorem generate_section lib id :
  lookup "id" lib = Some id ->
  (forall apis,
     lookup "apis" lib = Some (VList apis) ->
     apis <> [] ->
     forallb has_path apis = true ->
     exists r generate entries,
       convert_library (VDict lib) = Ok r /\
       lookup "generate" r = Some (VDict generate) /\
       lookup "apis" generate = Some (VList entries) /\
       List.length entries = List.length apis /\
       map (fun entry => field entry "path") entries
       = map (fun api => field api "path") apis /\
       Forall2 (fun api entry =>
                  field entry "service_config"
                  = kept (field api "service_config")) apis entries /\
       lookup "keep" generate = kept (lookup "preserve_regex" lib) /\
       lookup "remove" generate = kept (lookup "remove_regex" lib)) /\
  (lookup "apis" lib = None \/ lookup "apis" lib = Some (VList []) ->
   exists r,
     convert_library (VDict lib) = Ok r /\
     lookup "generate" r = None).
Proof.
  intros Hid; split.
  - intros apis Ha Hne Hwf.
    destruct (convert_apis apis Hwf) as (entries & Hfor & HF).
    rewrite (convert_library_generate lib id apis entries Hid Ha Hne Hfor).
    eexists; eexists; exists entries.
    split; [reflexivity|]. split; [reflexivity|].
    split; [|split; [|split; [|split; [|split]]]].
    + rewrite !lookup_with_field; reflexivity.
    + apply (for_each_length _ _ _ Hfor).
    + clear -HF. induction HF as [|api entry apis entries [Hp _] _ IH]; simpl;
        [reflexivity | rewrite Hp, IH; reflexivity].
    + clear -HF. induction HF as [|api entry apis entries [_ Hs] _ IH];
        constructor; assumption.
    + rewrite !lookup_with_field; simpl.
      destruct (kept (lookup "preserve_regex" lib)); reflexivity.
    + rewrite !lookup_with_field; simpl.
      destruct (kept (lookup "remove_regex" lib)); reflexivity.
  - intros Ha.
    assert (Hk : kept (lookup "apis" lib) = None)
      by (destruct Ha as [-> | ->]; reflexivity).
    rewrite (convert_library_plain lib id Hid Hk).
    eexists; split; reflexivity.
Qed.

Lemma generate_section_witness :
  (exists r generate entries,
     convert_library (VDict sample_library) = Ok r /\
     lookup "generate" r = Some (VDict generate) /\
     lookup "apis" generate = Some (VList entries) /\
     List.length entries = List.length [sample_api] /\
     map (fun entry => field entry "path") entries
     = map (fun api => field api "path") [sample_api] /\
     Forall2 (fun api entry =>
                field entry "service_config"
                = kept (field api "service_config")) [sample_api] entries /\
     lookup "keep" generate = kept (lookup "preserve_regex" sample_library) /\
     lookup "remove" generate = kept (lookup "remove_regex" sample_library)) /\
  (exists r,
     convert_library (VDict sample_bare) = Ok r /\
     lookup "generate" r = None).
Proof.
  split.
  - apply (proj1 (generate_section sample_library (VStr "asset") eq_refl)
             [sample_api]).
    + reflexivity.
    + discriminate.
    + reflexivity.
  - apply (proj2 (generate_section sample_bare (VStr "auth") eq_refl)).
    left; reflexivity.
Defined.

(** C10, as amended.  A library record with an identifier and without
    version, whose API list is absent, empty or a list of API descriptors
    that each have a path, converts to a record whose version is null.  Of
    the fields of the library record only the identifier is required: with
    it, and with such an API list, the record converts whatever else is
    absent, and without it the conversion raises the lookup error of
    ["id"]. *)
Theorem missing_version lib :
  apis_well_formed lib = true ->
  (forall id,
     lookup "id" lib = Some id ->
     lookup "version" lib = None ->
     exists r,
       convert_library (VDict lib) = Ok r /\
       lookup "name" r = Some id /\
       lookup "version" r = Some VNone) /\
  (forall id,
     lookup "id" lib = Some id ->
     exists r, convert_library (VDict lib) = Ok r) /\
  (lookup "id" lib = None ->
   convert_library (VDict lib) = Raise (KeyError "id")).
Proof.
  intros Hwf; split; [|split].
  - intros id Hid Hv.
    destruct (convert_library_total lib id Hid Hwf) as (r & Hr & Hn & Hver).
    rewrite Hv in Hver. exists r; auto.
  - intros id Hid.
    destruct (convert_library_total lib id Hid Hwf) as (r & Hr & _).
    exists r; exact Hr.
  - apply convert_library_no_id.
Qed.

Lemma missing_version_witness :
  apis_well_formed sample_bare = true /\
  lookup "id" sample_bare = Some (VStr "auth") /\
  lookup "version" sample_bare = None /\
  exists r,
    convert_library (VDict sample_bare) = Ok r /\
    lookup "name" r = Some (VStr "auth") /\
    lookup "version" r = Some VNone.
Proof.
  repeat split.
  apply (proj1 (missing_version sample_bare eq_refl) (VStr "auth"));
    reflexivity.
Defined.

(** C10 as stated fails: this record has an identifier and no version, and
    its conversion raises, for the API descriptor has no path. *)
Lemma version_absent_and_conversion_raises :
  let lib := [("id", VStr "asset");
              ("apis", VList [VDict [("service_config", VStr "cloudasset_v1.yaml")]])] in
  lookup "id" lib = Some (VStr "asset") /\
  lookup "version" lib = None /\
  convert_library (VDict lib) = Raise (KeyError "path").
Proof.
  repeat split.
Qed.

(** ** The set of blocked identifiers *)

Lemma key_eqb_eq a b : key_eqb a b = true <-> a = b.
Proof.
  destruct a, b; simpl; split; intros H; try discriminate; try reflexivity.
  - apply String.eqb_eq in H; congruence.
  - injection H as ->; apply String.eqb_refl.
  - apply andb_true_iff in H as [Hm He].
    apply Z.eqb_eq in Hm, He; congruence.
  - injection H as -> ->; rewrite !Z.eqb_refl; reflexivity.
  - apply Bool.eqb_prop in H; congruence.
  - injection H as ->; apply Bool.eqb_reflx.
Qed.

Lemma mem_key_app k a b : mem_key k (a ++ b)%list = mem_key k a || mem_key k b.
Proof.
  induction a as [|x a IH]; simpl; [reflexivity|].
  rewrite IH, orb_assoc; reflexivity.
Qed.

Lemma mem_key_cut n k s :
  mem_key k s = mem_key k (firstn n s) || mem_key k (skipn n s).
Proof. rewrite <- mem_key_app, firstn_skipn; reflexivity. Qed.

Lemma length_cut {A} n (s : list A) :
  List.length s = (List.length (firstn n s) + List.length (skipn n s))%nat.
Proof. rewrite <- length_app, firstn_skipn; reflexivity. Qed.

Lemma mem_key_insert slot k k' s :
  mem_key k (set_insert slot k' s) = key_eqb k k' || mem_key k s.
Proof.
  unfold set_insert. destruct (mem_key k' s) eqn:Hk'.
  - destruct (key_eqb k k') eqn:E; [|reflexivity].
    apply key_eqb_eq in E as ->. exact Hk'.
  - rewrite mem_key_app; simpl.
    rewrite (mem_key_cut (slot k' s) k s).
    destruct (mem_key k (firstn (slot k' s) s)), (key_eqb k k'),
      (mem_key k (skipn (slot k' s) s)); reflexivity.
Qed.

Lemma length_insert slot k s :
  List.length (set_insert slot k s) =
  if mem_key k s then List.length s else S (List.length s).
Proof.
  unfold set_insert. destruct (mem_key k s); [reflexivity|].
  rewrite length_app, (length_cut (slot k s) s); simpl; lia.
Qed.

Lemma same_set_insert slot slot' k a b :
  same_set a b -> same_set (set_insert slot k a) (set_insert slot' k b).
Proof.
  intros [Hm Hl]; split.
  - intros k0. rewrite !mem_key_insert, Hm; reflexivity.
  - rewrite !length_insert, Hm, Hl; reflexivity.
Qed.

(** One step of the first loop of [main] on two stores of one set. *)
Lemma release_blocked_step_same slot slot' a b entry :
  same_set a b ->
  match release_blocked_step slot a entry, release_blocked_step slot' b entry with
  | Ok a', Ok b' => same_set a' b'
  | Raise e, Raise e' => e = e'
  | _, _ => False
  end.
Proof.
  intros Hs. unfold release_blocked_step, set_add.
  destruct (get entry "release_blocked") as [flag|e]; simpl; [|reflexivity].
  destruct (truthy flag); [|exact Hs].
  destruct (getitem entry "id") as [id|e]; simpl; [|reflexivity].
  destruct (hash_key id) as [k|e]; simpl; [|reflexivity].
  apply same_set_insert; exact Hs.
Qed.

Lemma release_blocked_loop_same slot slot' items a b :
  same_set a b ->
  match for_fold (release_blocked_step slot) items a,
        for_fold (release_blocked_step slot') items b with
  | Ok a', Ok b' => same_set a' b'
  | Raise e, Raise e' => e = e'
  | _, _ => False
  end.
Proof.
  revert a b; induction items as [|entry items IH]; intros a b Hs; simpl.
  - exact Hs.
  - pose proof (release_blocked_step_same slot slot' a b entry Hs) as Hstep.
    destruct (release_blocked_step slot a entry) as [a'|e],
             (release_blocked_step slot' b entry) as [b'|e']; simpl;
      try contradiction; [apply IH; exact Hstep | exact Hstep].
Qed.

Lemma release_blocked_ids_same slot slot' config :
  match release_blocked_ids slot config, release_blocked_ids slot' config with
  | Ok a, Ok b => same_set a b
  | Raise e, Raise e' => e = e'
  | _, _ => False
  end.
Proof.
  unfold release_blocked_ids.
  destruct (get config "libraries") as [libraries|e]; simpl; [|reflexivity].
  destruct (truthy libraries); [|split; reflexivity].
  destruct (getitem config "libraries") as [l|e]; simpl; [|reflexivity].
  destruct (iterate l) as [items|e]; simpl; [|reflexivity].
  apply release_blocked_loop_same; split; reflexivity.
Qed.

Lemma convert_entry_same a b lib :
  same_set a b -> convert_entry a lib = convert_entry b lib.
Proof.
  intros [Hm _]. unfold convert_entry, set_contains.
  destruct (convert_library lib) as [converted|e]; simpl; [|reflexivity].
  destruct (getitem lib "id") as [id|e]; simpl; [|reflexivity].
  destruct (hash_key id) as [k|e]; simpl; [|reflexivity].
  rewrite Hm; reflexivity.
Qed.

Lemma for_each_ext {A B} (f g : A -> result B) xs :
  (forall x, f x = g x) -> for_each f xs = for_each g xs.
Proof.
  intros H; induction xs as [|x xs IH]; simpl; [reflexivity|].
  rewrite H, IH; reflexivity.
Qed.

(** C9.  A run is a function of the two documents: the order in which the
    set of blocked identifiers stores its members, which is all that can
    differ between two runs of the program, changes neither the effects nor
    the outcome, so the document written and the bytes [yaml.dump] makes of
    it are the same. *)
Theorem conversion_deterministic serialize slot slot' state config :
  main slot state config = main slot' state config /\
  written_bytes serialize (fst (main slot state config))
  = written_bytes serialize (fst (main slot' state config)).
Proof.
  assert (H : main slot state config = main slot' state config).
  { rewrite !main_assemble. unfold assemble.
    pose proof (release_blocked_ids_same slot slot' config) as Hrb.
    destruct (release_blocked_ids slot config) as [a|e],
             (release_blocked_ids slot' config) as [b|e']; simpl;
      try contradiction; [|subst; reflexivity].
    destruct (get_default state "image" (VStr "")) as [image_full|e]; simpl;
      [|reflexivity].
    destruct (parse_image_value image_full) as [parsed|e]; simpl; [|reflexivity].
    destruct (get_default state "libraries" (VList [])) as [libs|e]; simpl;
      [|reflexivity].
    destruct (iterate libs) as [items|e]; simpl; [|reflexivity].
    rewrite (for_each_ext (convert_entry a) (convert_entry b) items
               (fun lib => convert_entry_same a b lib Hrb)).
    destruct (for_each (convert_entry b) items) as [libraries|e]; simpl;
      [|reflexivity].
    destruct Hrb as [_ ->]; reflexivity. }
  split; [exact H | rewrite H; reflexivity].
Qed.

Lemma release_blocked_step_members slot s entry s' :
  release_blocked_step slot s entry = Ok s' ->
  forall k, mem_key k s' = true <-> mem_key k s = true \/ blocks entry k.
Proof.
  unfold release_blocked_step, set_add, blocks, get. intros H k.
  destruct entry as [| | | | | |d]; try discriminate H.
  simpl in *.
  destruct (lookup "release_blocked" d) as [flag|]; simpl in *.
  - destruct (truthy flag) eqn:Ht.
    + destruct (lookup "id" d) as [id|]; simpl in H; [|discriminate].
      destruct (hash_key id) as [k'|] eqn:Hk; simpl in H; [|discriminate].
      injection H as <-. rewrite mem_key_insert, orb_true_iff, key_eqb_eq.
      split.
      * intros [->|Hm]; [right; exists flag, id; auto | left; exact Hm].
      * intros [Hm|(flag' & id' & _ & Hid & Hk')]; [right; exact Hm|].
        left. injection Hid as <-. congruence.
    + injection H as <-. split; [auto|].
      intros [Hm|(flag' & id' & Hf & _)]; [exact Hm | discriminate].
  - injection H as <-. split; [auto|].
    intros [Hm|(flag' & id' & Hf & _)]; [exact Hm | discriminate].
Qed.

Lemma release_blocked_loop_members slot items s s' :
  for_fold (release_blocked_step slot) items s = Ok s' ->
  forall k,
    mem_key k s' = true <->
    mem_key k s = true \/ exists entry, In entry items /\ blocks entry k.
Proof.
  revert s; induction items as [|entry items IH]; simpl; intros s H k.
  - injection H as <-. split; [auto|].
    intros [Hm|(entry & [] & _)]; exact Hm.
  - apply bind_Ok in H as (s1 & Hstep & H).
    rewrite (IH s1 H k), (release_blocked_step_members slot s entry s1 Hstep k).
    split.
    + intros [[Hm|Hb]|(e & Hin & Hb)]; eauto.
    + intros [Hm|(e & [<-|Hin] & Hb)]; eauto.
Qed.

(** The set built from the config document holds the keys of the
    identifiers the registry blocks, and no other. *)
Lemma release_blocked_members slot config release_blocked :
  release_blocked_ids slot config = Ok release_blocked ->
  forall k, mem_key k release_blocked = true <-> blocked_in config k.
Proof.
  unfold release_blocked_ids, blocked_in, get. intros H k.
  destruct config as [| | | | | |cfg]; try discriminate H.
  simpl in *.
  destruct (lookup "libraries" cfg) as [libraries|]; simpl in *.
  - destruct (truthy libraries) eqn:Ht.
    + apply bind_Ok in H as (items & Hit & H).
      rewrite (release_blocked_loop_members slot items [] _ H k). simpl.
      split.
      * intros [Hm|(entry & Hin & Hb)]; [discriminate|].
        exists libraries, items, entry; auto.
      * intros (l & items' & entry & Hl & Hit' & Hin & Hb).
        injection Hl as <-. rewrite Hit in Hit'; injection Hit' as <-.
        right; eauto.
    + injection H as <-. simpl. split; [discriminate|].
      intros (l & _ & _ & Hl & _); discriminate.
  - injection H as <-. simpl. split; [discriminate|].
    intros (l & _ & _ & Hl & _); discriminate.
Qed.

(** ** The loop over the libraries *)

Lemma convert_library_shape lib r :
  convert_library lib = Ok r ->
  exists id,
    field lib "id" = Some id /\
    lookup "name" r = Some id /\
    lookup "_comment" r = None.
Proof.
  unfold convert_library. intros H.
  apply bind_Ok in H as (id & Hid & H).
  apply bind_Ok in H as (version & _ & H).
  apply bind_Ok in H as (apis & _ & H).
  assert (Hf : field lib "id" = Some id).
  { destruct lib as [| | | | | |d]; try discriminate Hid.
    simpl in *. destruct (lookup "id" d); [congruence | discriminate]. }
  exists id; split; [exact Hf|].
  destruct (truthy apis).
  - apply bind_Ok in H as (apis' & _ & H).
    apply bind_Ok in H as (items & _ & H).
    apply bind_Ok in H as (entries & _ & H).
    apply bind_Ok in H as (preserve_regex & _ & H).
    apply bind_Ok in H as (generate & _ & H).
    apply bind_Ok in H as (remove_regex & _ & H).
    apply bind_Ok in H as (generate' & _ & H).
    injection H as <-. split; reflexivity.
  - injection H as <-. split; reflexivity.
Qed.

Lemma convert_entry_record release_blocked lib record :
  convert_entry release_blocked lib = Ok record ->
  exists id k,
    field lib "id" = Some id /\
    hash_key id = Ok k /\
    lookup "name" record = Some id /\
    lookup "_comment" record =
    if mem_key k release_blocked then Some (VStr comment_text) else None.
Proof.
  unfold convert_entry, set_contains. intros H.
  apply bind_Ok in H as (converted & Hc & H).
  apply bind_Ok in H as (id' & Hid' & H).
  apply bind_Ok in H as (blocked & Hb & H).
  apply bind_Ok in Hb as (k & Hk & Hb). injection Hb as <-.
  destruct (convert_library_shape lib converted Hc) as (id & Hid & Hn & Hcm).
  assert (id' = id) as ->.
  { destruct lib as [| | | | | |d]; try discriminate Hid.
    simpl in *. rewrite Hid in Hid'. congruence. }
  exists id, k. split; [exact Hid|]. split; [exact Hk|].
  destruct (mem_key k release_blocked); injection H as <-.
  - rewrite !lookup_dict_set; simpl. auto.
  - auto.
Qed.

Lemma main_libraries slot state config t :
  main slot state config = (t, Ok tt) ->
  exists release_blocked items libraries out,
    release_blocked_ids slot config = Ok release_blocked /\
    state_libraries state = Ok items /\
    for_each (convert_entry release_blocked) items = Ok libraries /\
    t = success_trace out (List.length libraries) (List.length release_blocked) /\
    lookup "libraries" out = Some (VList (map VDict libraries)).
Proof.
  intros H.
  apply main_written in H
    as (rb & items & libraries & s & Hrb & _ & (libs & Hl & Hit) & Hf & ->).
  exists rb, items, libraries; eexists.
  split; [exact Hrb|]. split; [unfold state_libraries; rewrite Hl; exact Hit|].
  split; [exact Hf|]. split; [reflexivity|].
  apply output_libraries.
Qed.

Lemma names_follow release_blocked items libraries :
  for_each (convert_entry release_blocked) items = Ok libraries ->
  names libraries = identifiers items /\
  Forall (fun lib => field lib "id" <> None) items.
Proof.
  intros H. apply for_each_Forall2 in H.
  induction H as [|lib record items libraries Hc _ [IHn IHf]]; simpl.
  - split; [reflexivity | constructor].
  - destruct (convert_entry_record _ _ _ Hc) as (id & k & Hid & _ & Hn & _).
    split.
    + unfold names, identifiers in *; simpl. rewrite Hn, Hid, IHn; reflexivity.
    + constructor; [congruence | exact IHf].
Qed.

(** C1.  In a run that ends well the libraries of the written document are
    the converted entries of the state document's library list: as many, in
    the same order, each named by the identifier of its entry.  So an
    identifier that stands once in the state document names exactly one
    record, and a name that is no identifier of the state document, whatever
    the registry lists, names none.  When the library list is empty or
    missing, the written list is empty and the first summary line reports
    0. *)
Theorem libraries_follow_state :
  (forall slot state config t,
     main slot state config = (t, Ok tt) ->
     exists items libraries out m,
       state_libraries state = Ok items /\
       t = success_trace out (List.length libraries) m /\
       lookup "libraries" out = Some (VList (map VDict libraries)) /\
       List.length libraries = List.length items /\
       names libraries = identifiers items /\
       Forall (fun lib => field lib "id" <> None) items /\
       (forall before lib after id,
          items = (before ++ lib :: after)%list ->
          field lib "id" = Some id ->
          ~ In (Some id) (identifiers before) ->
          ~ In (Some id) (identifiers after) ->
          exists before' record after',
            libraries = (before' ++ record :: after')%list /\
            lookup "name" record = Some id /\
            ~ In (Some id) (names before') /\
            ~ In (Some id) (names after')) /\
       (forall id,
          ~ In (Some id) (identifiers items) ->
          ~ In (Some id) (names libraries))) /\
  (forall slot state config release_blocked image_full,
     lookup "libraries" state = None \/ lookup "libraries" state = Some (VList []) ->
     release_blocked_ids slot config = Ok release_blocked ->
     get_default (VDict state) "image" (VStr "") = Ok (VStr image_full) ->
     exists out,
       main slot (VDict state) config
       = (success_trace out 0 (List.length release_blocked), Ok tt) /\
       lookup "libraries" out = Some (VList []) /\
       In (Print "Converted 0 libraries to data/go/librarian.yaml")
          (success_trace out 0 (List.length release_blocked))).
Proof.
  split.
  - intros slot state config t H.
    apply main_libraries in H as (rb & items & libraries & out & _ & Hs & Hf & -> & Hl).
    destruct (names_follow rb items libraries Hf) as [Hn Hid].
    exists items, libraries, out, (List.length rb).
    split; [exact Hs|]. split; [reflexivity|]. split; [exact Hl|].
    split; [apply (for_each_length _ _ _ Hf)|].
    split; [exact Hn|]. split; [exact Hid|]. split.
    + intros before lib after id -> Hlib Hb Ha.
      unfold names, identifiers in *. rewrite map_app in Hn; simpl in Hn.
      apply map_eq_app in Hn as (before' & rest & -> & Hb' & Hr).
      apply map_eq_cons in Hr as (record & after' & -> & Hrec & Ha').
      exists before', record, after'.
      split; [reflexivity|]. split; [congruence|].
      rewrite Hb', Ha'; auto.
    + intros id Hno. rewrite Hn; exact Hno.
  - intros slot state config rb image_full Hl Hrb Hi.
    assert (Hlibs : get_default (VDict state) "libraries" (VList []) = Ok (VList []))
      by (simpl; destruct Hl as [-> | ->]; reflexivity).
    eexists. rewrite main_assemble. unfold assemble.
    rewrite Hrb, Hi, Hlibs; simpl.
    split; [reflexivity|].
    split; [apply output_libraries|].
    simpl; auto 10.
Qed.

Lemma libraries_follow_state_witness :
  (exists items libraries out m,
     state_libraries sample_state = Ok items /\
     fst (main slot0 sample_state sample_config)
     = success_trace out (List.length libraries) m /\
     lookup "libraries" out = Some (VList (map VDict libraries)) /\
     List.length libraries = List.length items /\
     names libraries = identifiers items) /\
  (exists out,
     main slot0 (VDict [("image", VStr "gcr.io/foo/bar:v2"); ("libraries", VList [])])
       sample_config
     = (success_trace out 0 2, Ok tt) /\
     lookup "libraries" out = Some (VList []) /\
     In (Print "Converted 0 libraries to data/go/librarian.yaml")
        (success_trace out 0 2)).
Proof.
  split.
  - destruct (proj1 libraries_follow_state slot0 sample_state sample_config
                (fst (main slot0 sample_state sample_config)))
      as (items & libraries & out & m & H1 & H2 & H3 & H4 & H5 & _).
    + vm_compute; reflexivity.
    + exists items, libraries, out, m; auto.
  - apply (proj2 libraries_follow_state slot0
             [("image", VStr "gcr.io/foo/bar:v2"); ("libraries", VList [])]
             sample_config
             [KStr "vertexai"; KStr "auth"] "gcr.io/foo/bar:v2").
    + right; reflexivity.
    + vm_compute; reflexivity.
    + reflexivity.
Defined.

Lemma hash_key_string v id : hash_key v = Ok (KStr id) -> v = VStr id.
Proof.
  destruct v as [|b|z|f|s|l|d]; simpl; intros H; try discriminate.
  - destruct b; discriminate.
  - destruct z as [|p|p]; simpl in H; try discriminate;
      unfold num_key in H; destruct (odd_part p 0); discriminate.
  - destruct f as [sg|sg| |sg m e]; try discriminate.
    unfold num_key in H; destruct (odd_part m e); discriminate.
  - congruence.
Qed.

(** On a stored registry list and a string, the registry blocks the key of
    the string exactly when the list has it with a truthy flag. *)
Lemma blocked_in_listed config entries id :
  lookup "libraries" config = Some (VList entries) ->
  (blocked_in (VDict config) (KStr id) <-> listed_blocked entries id).
Proof.
  intros Hc. unfold blocked_in, blocks, listed_blocked. split.
  - intros (l & items & entry & Hk & Hit & Hin & flag & v & Hf & Hid & Hh).
    simpl in Hk. rewrite Hc in Hk. simpl in Hk.
    destruct entries as [|e0 entries']; [discriminate|].
    injection Hk as <-. simpl in Hit. injection Hit as <-.
    destruct entry as [| | | | | |d]; try discriminate Hf.
    simpl in Hf, Hid. apply hash_key_string in Hh as ->.
    destruct (lookup "release_blocked" d) as [fl|] eqn:Hrb; [|discriminate].
    simpl in Hf. destruct (truthy fl) eqn:Ht; [|discriminate].
    exists d, fl. auto.
  - intros (entry & flag & Hin & Hrb & Ht & Hid).
    exists (VList entries), entries, (VDict entry).
    split.
    { simpl. rewrite Hc. destruct entries; [destruct Hin | reflexivity]. }
    split; [reflexivity|]. split; [exact Hin|].
    exists flag, (VStr id). simpl. rewrite Hrb; simpl. rewrite Ht. auto.
Qed.

(** C3.  Take a config document whose library list is [entries] and a state
    document whose library list is [libs].  In a run that ends well the
    written records follow [libs] one for one, each named by the identifier
    of its library; the record of a library whose identifier is a string
    that [entries] has with a truthy [release_blocked] carries the
    annotation with the fixed text, and the record of a library whose
    identifier is a string that [entries] does not so list carries no
    annotation.  For identifiers of any type the same holds with "the
    registry blocks the key of the identifier".  A config document without
    library list gives the empty set, and then no record of any run is
    annotated. *)
Theorem release_blocked_annotation :
  (forall slot state config entries libs t,
     lookup "libraries" config = Some (VList entries) ->
     lookup "libraries" state = Some (VList libs) ->
     main slot (VDict state) (VDict config) = (t, Ok tt) ->
     exists libraries out n m,
       t = success_trace out n m /\
       lookup "libraries" out = Some (VList (map VDict libraries)) /\
       Forall2
         (fun lib record =>
            lookup "name" record = field lib "id" /\
            forall id,
              field lib "id" = Some (VStr id) ->
              (listed_blocked entries id ->
               lookup "_comment" record
               = Some (VStr "release_blocked: true (handwritten code)")) /\
              (~ listed_blocked entries id ->
               lookup "_comment" record = None))
         libs libraries) /\
  (forall slot state config t,
     main slot state config = (t, Ok tt) ->
     exists items libraries out n m,
       state_libraries state = Ok items /\
       t = success_trace out n m /\
       lookup "libraries" out = Some (VList (map VDict libraries)) /\
       Forall2
         (fun lib record =>
            exists id k,
              field lib "id" = Some id /\
              hash_key id = Ok k /\
              (blocked_in config k ->
               lookup "_comment" record
               = Some (VStr "release_blocked: true (handwritten code)")) /\
              (~ blocked_in config k -> lookup "_comment" record = None))
         items libraries) /\
  (forall slot config,
     lookup "libraries" config = None ->
     release_blocked_ids slot (VDict config) = Ok [] /\
     (forall k, ~ blocked_in (VDict config) k) /\
     forall state t,
       main slot state (VDict config) = (t, Ok tt) ->
       exists libraries out n,
         t = success_trace out n 0 /\
         lookup "libraries" out = Some (VList (map VDict libraries)) /\
         Forall (fun record => lookup "_comment" record = None) libraries).
Proof.
  split; [|split].
  - intros slot state config entries libs t Hc Hs H.
    apply main_libraries in H as (rb & items & libraries & out & Hrb & Hst & Hf & -> & Hl).
    unfold state_libraries in Hst. simpl in Hst. rewrite Hs in Hst.
    simpl in Hst. injection Hst as <-.
    exists libraries, out; eexists; eexists.
    split; [reflexivity|]. split; [exact Hl|].
    apply for_each_Forall2 in Hf. clear Hs Hl.
    induction Hf as [|lib record libs' libraries' Hconv _ IH]; [constructor|].
    constructor; [|exact IH]. clear IH.
    destruct (convert_entry_record _ _ _ Hconv) as (v & k & Hid & Hk & Hn & Hcm).
    split; [congruence|].
    intros id Hstr. rewrite Hid in Hstr. injection Hstr as ->.
    simpl in Hk. injection Hk as <-.
    pose proof (release_blocked_members slot (VDict config) rb Hrb (KStr id)) as Hmem.
    pose proof (blocked_in_listed config entries id Hc) as Hlisted.
    destruct (mem_key (KStr id) rb); rewrite Hcm; split; intros Hb.
    + reflexivity.
    + exfalso; apply Hb, Hlisted, Hmem; reflexivity.
    + apply Hlisted, Hmem in Hb; discriminate.
    + reflexivity.
  - intros slot state config t H.
    apply main_libraries in H as (rb & items & libraries & out & Hrb & Hs & Hf & -> & Hl).
    exists items, libraries, out; eexists; eexists.
    split; [exact Hs|]. split; [reflexivity|]. split; [exact Hl|].
    apply for_each_Forall2 in Hf. clear Hs Hl.
    induction Hf as [|lib record items' libraries' Hc _ IH]; [constructor|].
    constructor; [|exact IH].
    destruct (convert_entry_record _ _ _ Hc) as (id & k & Hid & Hk & _ & Hcm).
    exists id, k. split; [exact Hid|]. split; [exact Hk|].
    pose proof (release_blocked_members slot config rb Hrb k) as Hmem.
    destruct (mem_key k rb); rewrite Hcm; split; intros Hb.
    + reflexivity.
    + exfalso; apply Hb, Hmem; reflexivity.
    + apply Hmem in Hb; discriminate.
    + reflexivity.
  - intros slot config Hl.
    assert (Hempty : release_blocked_ids slot (VDict config) = Ok [])
      by (unfold release_blocked_ids, get; simpl; rewrite Hl; reflexivity).
    split; [exact Hempty|]. split.
    + intros k (l & _ & _ & Hk & _). simpl in Hk. rewrite Hl in Hk. discriminate.
    + intros state t H.
      apply main_libraries in H
        as (rb & items & libraries & out & Hrb & _ & Hf & -> & Hout).
      rewrite Hempty in Hrb. injection Hrb as <-.
      exists libraries, out; eexists.
      split; [reflexivity|]. split; [exact Hout|].
      apply for_each_Forall2 in Hf. clear Hout.
      induction Hf as [|lib record items' libraries' Hc _ IH]; constructor;
        [|exact IH].
      destruct (convert_entry_record _ _ _ Hc) as (id & k & _ & _ & _ & Hcm).
      exact Hcm.
Qed.

(** On the sample documents: the registry lists asset without flag and
    auth with a true flag; the record of asset is written without
    annotation and the record of auth with it. *)
Lemma release_blocked_annotation_witness :
  exists asset auth out n m,
    fst (main slot0 sample_state sample_config) = success_trace out n m /\
    lookup "libraries" out = Some (VList [VDict asset; VDict auth]) /\
    lookup "name" asset = Some (VStr "asset") /\
    lookup "_comment" asset = None /\
    lookup "name" auth = Some (VStr "auth") /\
    lookup "_comment" auth
    = Some (VStr "release_blocked: true (handwritten code)").
Proof.
  destruct (proj1 release_blocked_annotation slot0
              [("image", VStr "gcr.io/foo/bar:v2");
               ("libraries", VList [VDict sample_library; VDict sample_bare])]
              [("libraries",
                VList [VDict [("id", VStr "auth"); ("release_blocked", VBool true)];
                       VDict [("id", VStr "vertexai"); ("release_blocked", VBool true)];
                       VDict [("id", VStr "asset")]])]
              _ _ (fst (main slot0 sample_state sample_config))
              eq_refl eq_refl)
    as (libraries & out & n & m & Ht & Hl & HF).
  - vm_compute; reflexivity.
  - inversion HF as [|lib1 asset libs1 rest1 [Hn1 Hc1] HF1]; subst.
    inversion HF1 as [|lib2 auth libs2 rest2 [Hn2 Hc2] HF2]; subst.
    inversion HF2; subst.
    exists asset, auth, out, n, m.
    split; [exact Ht|]. split; [exact Hl|].
    split; [exact Hn1|]. split.
    + apply (Hc1 "asset" eq_refl).
      intros (entry & flag & Hin & Hrb & Htrue & Hid).
      simpl in Hin.
      destruct Hin as [E|[E|[E|[]]]]; injection E as <-;
        simpl in Hrb, Hid; congruence.
    + split; [exact Hn2|].
      apply (Hc2 "auth" eq_refl).
      exists [("id", VStr "auth"); ("release_blocked", VBool true)], (VBool true).
      simpl; auto.
Defined.

Lemma convert_entry_no_id release_blocked lib :
  lookup "id" lib = None ->
  convert_entry release_blocked (VDict lib) = Raise (KeyError "id").
Proof.
  intros H. unfold convert_entry.
  rewrite (convert_library_no_id lib H); reflexivity.
Qed.

(** C7.  When a record of the state document's library list has no
    identifier, the run raises and has done nothing: no directory made, no
    file opened, nothing written or printed.  The exception is the lookup
    error of ["id"] when nothing before that record raises: the registry and
    the image reference are read and the records before it convert. *)
Theorem missing_identifier_aborts slot state config items lib :
  state_libraries state = Ok items ->
  In (VDict lib) items ->
  lookup "id" lib = None ->
  (exists e, main slot state config = ([], Raise e)) /\
  (forall release_blocked image_full before after,
     release_blocked_ids slot config = Ok release_blocked ->
     get_default state "image" (VStr "") = Ok (VStr image_full) ->
     items = (before ++ VDict lib :: after)%list ->
     Forall (fun l => exists r, convert_entry release_blocked l = Ok r) before ->
     main slot state config = ([], Raise (KeyError "id"))).
Proof.
  intros Hs Hin Hid.
  unfold state_libraries in Hs. apply bind_Ok in Hs as (libs & Hl & Hit).
  split.
  - rewrite main_assemble. unfold assemble.
    destruct (release_blocked_ids slot config) as [rb|e]; simpl; [|eauto].
    destruct (get_default state "image" (VStr "")) as [image_full|e]; simpl;
      [|eauto].
    destruct (parse_image_value image_full) as [parsed|e]; simpl; [|eauto].
    rewrite Hl; simpl. rewrite Hit; simpl.
    destruct (for_each_In_raises (convert_entry rb) items (VDict lib)
                (KeyError "id") Hin (convert_entry_no_id rb lib Hid))
      as (e & ->).
    simpl; eauto.
  - intros rb image_full before after Hrb Hi -> Hbefore.
    rewrite main_assemble. unfold assemble.
    rewrite Hrb, Hi, Hl; simpl. rewrite Hit; simpl.
    rewrite (for_each_raises (convert_entry rb) before (VDict lib) after
               (KeyError "id") Hbefore (convert_entry_no_id rb lib Hid)).
    reflexivity.
Qed.

Lemma missing_identifier_aborts_witness :
  let state :=
    VDict [("image", VStr "gcr.io/foo/bar:v2");
           ("libraries",
            VList [VDict sample_library; VDict [("version", VStr "0.3.1")]])] in
  main slot0 state sample_config = ([], Raise (KeyError "id")).
Proof.
  apply (proj2 (missing_identifier_aborts slot0
                  (VDict [("image", VStr "gcr.io/foo/bar:v2");
                          ("libraries",
                           VList [VDict sample_library;
                                  VDict [("version", VStr "0.3.1")]])])
                  sample_config
                  [VDict sample_library; VDict [("version", VStr "0.3.1")]]
                  [("version", VStr "0.3.1")]
                  eq_refl (or_intror (or_introl eq_refl)) eq_refl)
           [KStr "vertexai"; KStr "auth"] "gcr.io/foo/bar:v2"
           [VDict sample_library] []).
  - vm_compute; reflexivity.
  - reflexivity.
  - reflexivity.
  - constructor; [|constructor]. eexists; vm_compute; reflexivity.
Defined.

(** C8.  The document a run writes has its top-level keys in the order
    version, language, container, generate, release, libraries, where
    container stands exactly when the parsed image is not empty, and then
    the image reference of the state document is not empty.  [yaml.dump] is
    called with [sort_keys] off, so it lists the keys in this order, and
    not sorted. *)
Theorem output_key_order slot state config t :
  main slot state config = (t, Ok tt) ->
  exists image_full out n m,
    get_default state "image" (VStr "") = Ok (VStr image_full) /\
    t = success_trace out n m /\
    keys out
    = (["version"; "language"]
       ++ (if fst (parse_image image_full) =? "" then [] else ["container"])
       ++ ["generate"; "release"; "libraries"])%list /\
    (In "container" (keys out) -> image_full <> "") /\
    dumped_key_order dump_opts out = keys out /\
    (forall opts, sort_keys opts = true -> dumped_key_order opts out <> keys out).
Proof.
  intros H.
  apply main_written in H as (rb & items & libraries & s & _ & Hs & _ & _ & ->).
  set (out := dict_set "libraries" (VList (map VDict libraries))
                (output_head (fst (parse_image s)))).
  assert (Hk : keys out
               = (["version"; "language"]
                  ++ (if fst (parse_image s) =? "" then [] else ["container"])
                  ++ ["generate"; "release"; "libraries"])%list).
  { unfold out. rewrite output_keys. simpl truthy.
    destruct (fst (parse_image s) =? ""); reflexivity. }
  exists s, out; eexists; eexists.
  split; [exact Hs|]. split; [reflexivity|]. split; [exact Hk|].
  split; [|split].
  - intros Hin Hempty. rewrite Hk, Hempty in Hin. simpl in Hin.
    intuition discriminate.
  - reflexivity.
  - intros opts Ho. unfold dumped_key_order. rewrite Ho, Hk.
    destruct (fst (parse_image s) =? ""); vm_compute; discriminate.
Qed.

Lemma output_key_order_witness :
  exists image_full out n m,
    get_default sample_state "image" (VStr "") = Ok (VStr image_full) /\
    fst (main slot0 sample_state sample_config) = success_trace out n m /\
    keys out
    = (["version"; "language"]
       ++ (if fst (parse_image image_full) =? "" then [] else ["container"])
       ++ ["generate"; "release"; "libraries"])%list /\
    (In "container" (keys out) -> image_full <> "") /\
    dumped_key_order dump_opts out = keys out /\
    (forall opts, sort_keys opts = true -> dumped_key_order opts out <> keys out).
Proof.
  apply (output_key_order slot0 sample_state sample_config).
  vm_compute; reflexivity.
Defined.

(** ** The sample documents, run *)

Example parse_digest_reference :
  parse_image "gcr.io/foo/bar@sha256:abcd1234" = ("gcr.io/foo", "latest").
Proof. reflexivity. Qed.

Example parse_port_reference :
  parse_image "localhost:5000/tool" = ("localhost", "5000/tool").
Proof. reflexivity. Qed.

Example parse_bare_reference : parse_image "tool" = ("tool", "latest").
Proof. reflexivity. Qed.

Example true_is_one :
  hash_key (VBool true) = hash_key (VInt 1) /\
  hash_key (VInt 1) = hash_key (VFloat (S754_finite false 4 (-2))).
Proof. split; reflexivity. Qed.

Example convert_sample_library :
  convert_library (VDict sample_library) =
  Ok [("name", VStr "asset"); ("version", VStr "1.22.0");
      ("generate",
       VDict [("apis", VList [sample_api]);
              ("keep", VList [VStr "asset/apiv1/doc.go"])])].
Proof. reflexivity. Qed.

Example run_sample :
  main slot0 sample_state sample_config =
  (success_trace
     [("version", VStr "v0.5.0"); ("language", VStr "go");
      ("container",
       VDict [("image", VStr "gcr.io/foo/bar"); ("tag", VStr "latest")]);
      ("generate",
       VDict [("output_dir", VStr "./");
              ("defaults",
               VDict [("transport", VStr "grpc+rest");
                      ("rest_numeric_enums", VBool true);
                      ("release_level", VStr "stable")])]);
      ("release", VDict [("tag_format", VStr "{id}/v{version}")]);
      ("libraries",
       VList [VDict [("name", VStr "asset"); ("version", VStr "1.22.0");
                     ("generate",
                      VDict [("apis", VList [sample_api]);
                             ("keep", VList [VStr "asset/apiv1/doc.go"])])];
              VDict [("name", VStr "auth"); ("version", VNone);
                     ("_comment",
                      VStr "release_blocked: true (handwritten code)")]])]
     2 2,
   Ok tt).
Proof. vm_compute; reflexivity. Qed.

Example run_ill_typed_image :
  main slot0 (VDict [("image", VNone)]) sample_config = ([], Raise TypeError).
Proof. reflexivity. Qed.

Example sorted_keys_of_output :
  sorted_keys ["version"; "language"; "generate"; "release"; "libraries"]
  = ["generate"; "language"; "libraries"; "release"; "version"].
Proof. reflexivity. Qed.

(** * Further properties of the conversion *)

(** ** convert_library: where it returns, what it reads, what it writes *)

Lemma convert_api_Ok api entry :
  convert_api api = Ok entry ->
  exists d path,
    api = VDict d /\
    lookup "path" d = Some path /\
    entry = VDict (with_field "service_config" (kept (lookup "service_config" d))
                     [("path", path)]).
Proof.
  intros H.
  destruct api as [| | | | | |d]; try discriminate H.
  destruct (lookup "path" d) as [path|] eqn:Hp.
  - rewrite (convert_api_record d path Hp) in H. injection H as <-. eauto.
  - unfold convert_api in H; simpl in H. rewrite Hp in H. discriminate.
Qed.

Lemma convert_apis_Ok items entries :
  for_each convert_api items = Ok entries -> forallb has_path items = true.
Proof.
  intros H. apply for_each_Forall2 in H.
  induction H as [|api entry items entries Ha _ IH]; [reflexivity|].
  apply convert_api_Ok in Ha as (d & path & -> & Hp & _).
  simpl. unfold has_path; simpl. rewrite Hp. exact IH.
Qed.

Lemma chars_not_nil s : s <> "" -> exists c l, chars s = VStr c :: l.
Proof.
  destruct s as [|a s]; [congruence|]. intros _. unfold chars; simpl; eauto.
Qed.

(** What a conversion that returns has gone through. *)
Lemma convert_library_Ok lib r :
  convert_library (VDict lib) = Ok r ->
  exists id,
    lookup "id" lib = Some id /\
    ((kept (lookup "apis" lib) = None /\
      r = [("name", id); ("version", or_none (lookup "version" lib))]) \/
     (exists apis entries,
        lookup "apis" lib = Some (VList apis) /\
        apis <> [] /\
        forallb has_path apis = true /\
        for_each convert_api apis = Ok entries /\
        r = [("name", id); ("version", or_none (lookup "version" lib));
             ("generate",
              VDict (with_field "remove" (kept (lookup "remove_regex" lib))
                       (with_field "keep" (kept (lookup "preserve_regex" lib))
                          [("apis", VList entries)])))])).
Proof.
  intros H.
  destruct (lookup "id" lib) as [id|] eqn:Hid;
    [|rewrite (convert_library_no_id lib Hid) in H; discriminate].
  exists id; split; [reflexivity|].
  destruct (kept (lookup "apis" lib)) as [v|] eqn:Hk.
  - right.
    assert (Ha : lookup "apis" lib = Some v /\ truthy v = true).
    { destruct (lookup "apis" lib) as [a|]; simpl in Hk; [|discriminate].
      destruct (truthy a) eqn:Ht; [|discriminate].
      injection Hk as ->; auto. }
    destruct Ha as [Ha Ht].
    assert (Hloop : exists items entries,
               iterate v = Ok items /\ for_each convert_api items = Ok entries).
    { unfold convert_library, get in H; cbn -[for_each truthy iterate] in H.
      rewrite Hid, Ha in H; cbn -[for_each truthy iterate] in H.
      destruct (lookup "version" lib); cbn -[for_each truthy iterate] in H;
        rewrite Ht in H;
        apply bind_Ok in H as (items & Hit & H);
        apply bind_Ok in H as (entries & Hfor & _); eauto. }
    destruct Hloop as (items & entries & Hit & Hfor).
    pose proof (convert_apis_Ok items entries Hfor) as Hpaths.
    destruct v as [| | | |s|apis|d]; try discriminate Hit.
    + exfalso. simpl in Hit; injection Hit as <-.
      destruct (chars_not_nil s) as (c & l & Hc).
      { intros ->; discriminate Ht. }
      rewrite Hc in Hpaths; discriminate.
    + simpl in Hit; injection Hit as <-.
      assert (Hne : apis <> []) by (intros ->; discriminate).
      exists apis, entries.
      split; [exact Ha|]. split; [exact Hne|]. split; [exact Hpaths|].
      split; [exact Hfor|].
      rewrite (convert_library_generate lib id apis entries Hid Ha Hne Hfor) in H.
      injection H as <-; reflexivity.
    + exfalso. simpl in Hit; injection Hit as <-.
      destruct d as [|[k x] d]; discriminate.
  - left. split; [reflexivity|].
    rewrite (convert_library_plain lib id Hid Hk) in H.
    injection H as <-; reflexivity.
Qed.

(** X1.  [convert_library] returns on a mapping exactly when the mapping has
    an identifier and its API list is absent, falsy or a list of mappings
    that each have a path; on a value that is no mapping it raises
    [TypeError]. *)
Theorem convert_library_domain :
  (forall lib,
     (exists r, convert_library (VDict lib) = Ok r) <->
     (exists id, lookup "id" lib = Some id) /\ apis_well_formed lib = true) /\
  (forall v, is_mapping v = false -> convert_library v = Raise TypeError).
Proof.
  split.
  - intros lib; split.
    + intros (r & H).
      apply convert_library_Ok in H as (id & Hid & [[Hk _]|Hg]).
      * split; [eauto|]. unfold apis_well_formed; rewrite Hk; reflexivity.
      * destruct Hg as (apis & entries & Ha & Hne & Hp & _).
        split; [eauto|]. unfold apis_well_formed; rewrite Ha; simpl.
        destruct apis; [contradiction | exact Hp].
    + intros [(id & Hid) Hwf].
      destruct (convert_library_total lib id Hid Hwf) as (r & Hr & _). eauto.
  - intros v Hv. destruct v; try reflexivity; discriminate.
Qed.

Lemma convert_library_domain_witness :
  (exists r, convert_library (VDict sample_library) = Ok r) /\
  convert_library (VList [VDict sample_library]) = Raise TypeError.
Proof.
  split.
  - apply (proj1 convert_library_domain sample_library).
    split; [exists (VStr "asset")|]; reflexivity.
  - apply (proj2 convert_library_domain (VList [VDict sample_library])).
    reflexivity.
Defined.

(** X2.  [convert_library] reads five fields of the record: two records
    that agree on [id], [version], [apis], [preserve_regex] and
    [remove_regex] convert alike, to the same record or the same exception,
    whatever else they hold. *)
Theorem convert_library_reads_five_fields lib lib' :
  (forall k,
     In k ["id"; "version"; "apis"; "preserve_regex"; "remove_regex"] ->
     lookup k lib = lookup k lib') ->
  convert_library (VDict lib) = convert_library (VDict lib').
Proof.
  intros H.
  assert (Hid : lookup "id" lib = lookup "id" lib') by (apply H; simpl; auto).
  assert (Hv : lookup "version" lib = lookup "version" lib')
    by (apply H; simpl; auto).
  assert (Ha : lookup "apis" lib = lookup "apis" lib') by (apply H; simpl; auto).
  assert (Hp : lookup "preserve_regex" lib = lookup "preserve_regex" lib')
    by (apply H; simpl; auto 6).
  assert (Hr : lookup "remove_regex" lib = lookup "remove_regex" lib')
    by (apply H; simpl; auto 6).
  unfold convert_library, get, get_default, getitem.
  rewrite Hid, Hv, Ha, Hp, Hr; reflexivity.
Qed.

Lemma convert_library_reads_five_fields_witness :
  convert_library (VDict sample_library_full)
  = convert_library (VDict sample_library).
Proof.
  apply (convert_library_reads_five_fields sample_library_full sample_library).
  intros k [<-|[<-|[<-|[<-|[<-|[]]]]]]; reflexivity.
Defined.

Lemma keys_with_field k o d :
  lookup k d = None ->
  keys (with_field k o d) = (keys d ++ optional_key k o)%list.
Proof.
  destruct o as [v|]; simpl; [|rewrite app_nil_r; reflexivity].
  induction d as [|[k' v'] d IH]; simpl; [reflexivity|].
  destruct (String.eqb_spec k k') as [->|Hne]; [discriminate|].
  intros Hl. simpl; rewrite (IH Hl); reflexivity.
Qed.

(** X3.  The record [convert_library] returns has the keys name, version
    and, when there are APIs, generate, in this order; the generate section
    has the keys apis, keep and remove in this order, the last two when the
    record has a non-empty [preserve_regex] and [remove_regex]; and every
    API entry has the key path, followed by service_config when the API has
    a non-empty one.  No other key of the old record is carried over. *)
Theorem converted_record_keys lib r :
  convert_library (VDict lib) = Ok r ->
  keys r = (["name"; "version"]
            ++ optional_key "generate" (kept (lookup "apis" lib)))%list /\
  (forall generate,
     lookup "generate" r = Some generate ->
     exists g apis entries,
       generate = VDict g /\
       keys g = (["apis"]
                 ++ optional_key "keep" (kept (lookup "preserve_regex" lib))
                 ++ optional_key "remove" (kept (lookup "remove_regex" lib)))%list /\
       lookup "apis" lib = Some (VList apis) /\
       lookup "apis" g = Some (VList entries) /\
       Forall2
         (fun api entry =>
            exists e,
              entry = VDict e /\
              keys e = (["path"]
                        ++ optional_key "service_config"
                             (kept (field api "service_config")))%list)
         apis entries).
Proof.
  intros H.
  apply convert_library_Ok in H as (id & Hid & [[Hk ->]|Hg]).
  - rewrite Hk. split; [reflexivity|]. intros generate Hgen; discriminate.
  - destruct Hg as (apis & entries & Ha & Hne & Hp & Hfor & ->).
    assert (Hk : kept (lookup "apis" lib) = Some (VList apis)).
    { rewrite Ha; simpl. destruct apis; [contradiction | reflexivity]. }
    rewrite Hk. split; [reflexivity|].
    intros generate Hgen. simpl in Hgen. injection Hgen as <-.
    eexists; exists apis, entries. split; [reflexivity|].
    split; [|split; [exact Ha|split]].
    + rewrite !keys_with_field.
      * rewrite <- app_assoc; reflexivity.
      * reflexivity.
      * rewrite lookup_with_field; reflexivity.
    + rewrite !lookup_with_field; reflexivity.
    + clear -Hfor. apply for_each_Forall2 in Hfor.
      induction Hfor as [|api entry apis entries Hc _ IH]; constructor; [|exact IH].
      apply convert_api_Ok in Hc as (d & path & -> & Hpath & ->).
      eexists; split; [reflexivity|].
      rewrite keys_with_field; reflexivity.
Qed.

Lemma converted_record_keys_witness :
  exists r,
    convert_library (VDict sample_library_full) = Ok r /\
    keys r = ["name"; "version"; "generate"] /\
    exists g, lookup "generate" r = Some (VDict g) /\ keys g = ["apis"; "keep"].
Proof.
  eexists. split; [reflexivity|].
  destruct (converted_record_keys sample_library_full _ eq_refl) as [Hk Hg].
  split; [exact Hk|].
  destruct (Hg _ eq_refl) as (g & apis & entries & Hgen & Hkeys & _).
  exists g. split; [rewrite <- Hgen; reflexivity | exact Hkeys].
Defined.

(** X4.  When the record has an identifier and the first API that is no
    mapping with a path is a mapping without path, [convert_library] raises
    the lookup error of ["path"]; when it is no mapping, [TypeError]. *)
Theorem api_without_path lib id before api after :
  lookup "id" lib = Some id ->
  lookup "apis" lib = Some (VList (before ++ api :: after)%list) ->
  forallb has_path before = true ->
  has_path api = false ->
  convert_library (VDict lib)
  = Raise (if is_mapping api then KeyError "path" else TypeError).
Proof.
  intros Hid Ha Hbefore Hapi.
  assert (Hraise : convert_api api
                   = Raise (if is_mapping api then KeyError "path" else TypeError)).
  { unfold has_path in Hapi.
    destruct api as [| | | | | |d]; try reflexivity.
    simpl in Hapi. unfold convert_api; simpl.
    destruct (lookup "path" d); [discriminate | reflexivity]. }
  assert (Hloop : for_each convert_api (before ++ api :: after)%list
                  = Raise (if is_mapping api then KeyError "path" else TypeError)).
  { apply for_each_raises; [|exact Hraise].
    destruct (convert_apis before Hbefore) as (entries & Hfor & _).
    apply for_each_Forall2 in Hfor. clear -Hfor.
    induction Hfor; constructor; eauto. }
  assert (Ht : truthy (VList (before ++ api :: after)%list) = true)
    by (destruct before; reflexivity).
  unfold convert_library, get; cbn -[for_each truthy].
  rewrite Hid, Ha; cbn -[for_each truthy].
  destruct (lookup "version" lib); cbn -[for_each truthy];
    rewrite Ht, Hloop; reflexivity.
Qed.

Lemma api_without_path_witness :
  convert_library
    (VDict [("id", VStr "asset");
            ("apis", VList [sample_api;
                            VDict [("service_config", VStr "cloudasset_v1.yaml")];
                            VStr "google/cloud/asset/v1p2beta1"])])
  = Raise (KeyError "path").
Proof.
  apply (api_without_path _ (VStr "asset") [sample_api]
           (VDict [("service_config", VStr "cloudasset_v1.yaml")])
           [VStr "google/cloud/asset/v1p2beta1"]); reflexivity.
Defined.

(** ** The set of blocked identifiers *)

Lemma mem_key_In k s : mem_key k s = true <-> In k s.
Proof.
  induction s as [|k' s IH]; simpl.
  - split; [discriminate | tauto].
  - rewrite orb_true_iff, key_eqb_eq, IH. split; intros [H|H]; auto.
Qed.

Lemma set_insert_NoDup slot k s : NoDup s -> NoDup (set_insert slot k s).
Proof.
  intros Hs. unfold set_insert.
  destruct (mem_key k s) eqn:Hk; [exact Hs|].
  apply (Permutation_NoDup (l := k :: s)).
  - rewrite <- (firstn_skipn (slot k s) s) at 1. apply Permutation_middle.
  - constructor; [|exact Hs].
    intros Hin. apply mem_key_In in Hin. congruence.
Qed.

Lemma release_blocked_step_set slot s entry s' :
  release_blocked_step slot s entry = Ok s' ->
  NoDup s ->
  NoDup s' /\ (List.length s' <= S (List.length s))%nat.
Proof.
  unfold release_blocked_step, set_add. intros H Hs.
  apply bind_Ok in H as (flag & _ & H).
  destruct (truthy flag).
  - apply bind_Ok in H as (id & _ & H).
    apply bind_Ok in H as (k & _ & H). injection H as <-.
    split; [apply set_insert_NoDup; exact Hs|].
    rewrite length_insert. destruct (mem_key k s); lia.
  - injection H as <-. split; [exact Hs | lia].
Qed.

Lemma release_blocked_loop_set slot items s s' :
  for_fold (release_blocked_step slot) items s = Ok s' ->
  NoDup s ->
  NoDup s' /\ (List.length s' <= List.length items + List.length s)%nat.
Proof.
  revert s; induction items as [|entry items IH]; simpl; intros s H Hs.
  - injection H as <-. split; [exact Hs | lia].
  - apply bind_Ok in H as (s1 & Hstep & H).
    destruct (release_blocked_step_set slot s entry s1 Hstep Hs) as [Hs1 Hl1].
    destruct (IH s1 H Hs1) as [Hs' Hl']. split; [exact Hs' | lia].
Qed.

(** X6.  The set of blocked identifiers a run builds holds each identifier
    the registry blocks once, however often the registry lists it, and
    nothing else; it has at most as many members as the registry has
    entries; and the second summary line of a run that ends well prints its
    size, whether or not the state document has those libraries. *)
Theorem blocked_count slot state config t :
  main slot state config = (t, Ok tt) ->
  exists release_blocked,
    release_blocked_ids slot config = Ok release_blocked /\
    NoDup release_blocked /\
    (forall k, In k release_blocked <-> blocked_in config k) /\
    (forall libraries items,
       kept (field config "libraries") = Some libraries ->
       iterate libraries = Ok items ->
       (List.length release_blocked <= List.length items)%nat) /\
    (kept (field config "libraries") = None -> release_blocked = []) /\
    In (Print ("Release-blocked libraries: "
               ++ str_of_nat (List.length release_blocked))) t.
Proof.
  intros H.
  apply main_libraries in H as (rb & items & libraries & out & Hrb & _ & _ & -> & _).
  exists rb. split; [exact Hrb|].
  assert (Hset : NoDup rb /\
                 (forall libs entries,
                    kept (field config "libraries") = Some libs ->
                    iterate libs = Ok entries ->
                    (List.length rb <= List.length entries)%nat) /\
                 (kept (field config "libraries") = None -> rb = [])).
  { clear -Hrb. unfold release_blocked_ids, get in Hrb.
    destruct config as [| | | | | |cfg]; try discriminate Hrb.
    simpl in *.
    destruct (lookup "libraries" cfg) as [l|]; simpl in *.
    - destruct (truthy l) eqn:Ht.
      + apply bind_Ok in Hrb as (entries & Hit & Hloop).
        destruct (release_blocked_loop_set slot entries [] rb Hloop (NoDup_nil _))
          as [Hnd Hlen].
        split; [exact Hnd|]. split; [|discriminate].
        intros libs entries' Hl Hit'. injection Hl as <-.
        rewrite Hit in Hit'; injection Hit' as <-. simpl in Hlen; lia.
      + injection Hrb as <-.
        split; [constructor|]. split; [discriminate | reflexivity].
    - injection Hrb as <-.
      split; [constructor|]. split; [discriminate | reflexivity]. }
  destruct Hset as (Hnd & Hlen & Hnone).
  split; [exact Hnd|]. split.
  - intros k. rewrite <- mem_key_In.
    apply (release_blocked_members slot config rb Hrb).
  - split; [exact Hlen|]. split; [exact Hnone|]. simpl; auto 10.
Qed.

Lemma blocked_count_witness :
  exists release_blocked,
    release_blocked_ids slot0 sample_config_twice = Ok release_blocked /\
    NoDup release_blocked /\
    List.length release_blocked = 1%nat /\
    In (Print "Release-blocked libraries: 1")
       (fst (main slot0 sample_state sample_config_twice)).
Proof.
  destruct (blocked_count slot0 sample_state sample_config_twice
              (fst (main slot0 sample_state sample_config_twice)))
    as (rb & Hrb & Hnd & _ & _ & _ & Hp).
  - vm_compute; reflexivity.
  - exists rb. split; [exact Hrb|]. split; [exact Hnd|].
    assert (E : rb = [KStr "auth"]) by (vm_compute in Hrb; congruence).
    subst rb. split; [reflexivity | exact Hp].
Defined.

Lemma release_blocked_step_domain slot s entry :
  if entry_ok entry
  then exists s', release_blocked_step slot s entry = Ok s'
  else exists e, release_blocked_step slot s entry = Raise e.
Proof.
  unfold entry_ok, release_blocked_step, set_add, get.
  destruct entry as [| | | | | |d]; simpl; eauto.
  destruct (lookup "release_blocked" d) as [flag|]; simpl; eauto.
  destruct (truthy flag); eauto.
  destruct (lookup "id" d) as [id|]; simpl; eauto.
  destruct id as [| | |f| | |]; simpl; eauto.
  destruct f; simpl; eauto.
Qed.

Lemma release_blocked_loop_domain slot items s :
  (exists s', for_fold (release_blocked_step slot) items s = Ok s') <->
  forallb entry_ok items = true.
Proof.
  revert s; induction items as [|entry items IH]; intros s; simpl.
  - split; eauto.
  - pose proof (release_blocked_step_domain slot s entry) as Hstep.
    destruct (entry_ok entry); simpl.
    + destruct Hstep as (s1 & ->); simpl. apply IH.
    + destruct Hstep as (e & ->); simpl.
      split; [intros (s' & H); discriminate | discriminate].
Qed.

(** X7.  On a config document whose library list is a list, the set is
    built exactly when every entry is a mapping and every entry with a
    truthy [release_blocked] has a hashable identifier: an entry that is not
    blocked needs no identifier. *)
Theorem release_blocked_ids_domain slot config items :
  lookup "libraries" config = Some (VList items) ->
  ((exists release_blocked,
      release_blocked_ids slot (VDict config) = Ok release_blocked) <->
   forallb entry_ok items = true).
Proof.
  intros Hl. unfold release_blocked_ids, get; simpl. rewrite Hl; simpl.
  destruct items as [|entry items].
  - split; eauto.
  - cbn -[for_fold forallb]. apply release_blocked_loop_domain.
Qed.

Lemma release_blocked_ids_domain_witness :
  exists release_blocked,
    release_blocked_ids slot0 sample_config_twice = Ok release_blocked.
Proof.
  apply (proj2 (release_blocked_ids_domain slot0
                  [("libraries",
                    VList [VDict [("id", VStr "auth"); ("release_blocked", VBool true)];
                           VDict [("id", VStr "asset"); ("release_blocked", VBool false)];
                           VDict [("id", VStr "auth"); ("release_blocked", VBool true)];
                           VDict [("release_blocked", VNone)]])]
                  _ eq_refl)).
  reflexivity.
Defined.

(** ** The image written *)

Lemma container_image_without_at image : has "@" (container_image image) = false.
Proof.
  unfold container_image. fold (has "@" image).
  destruct (has "@" image) eqn:H; simpl; [|exact H].
  destruct (split_first "@" image H) as (rest & _ & Hno). exact Hno.
Qed.

Lemma container_image_prefix image :
  exists rest, image = container_image image ++ rest.
Proof.
  unfold container_image. fold (has "@" image).
  destruct (has "@" image) eqn:H; simpl.
  - destruct (split_first "@" image H) as (rest & Heq & _). eauto.
  - exists "". clear H. induction image as [|c s IH]; simpl; congruence.
Qed.

Lemma append_empty s : s ++ "" = s.
Proof. induction s as [|c s IH]; simpl; congruence. Qed.

Lemma parse_image_prefix image_full :
  exists rest, image_full = fst (parse_image image_full) ++ rest.
Proof.
  destruct (contains "@sha256" image_full) eqn:Hd.
  - rewrite (parse_image_digest _ Hd); cbv zeta; simpl fst.
    destruct (split_first "@" image_full (contains_has _ _ _ Hd))
      as (rest & Heq & _).
    set (image_base := first_part (split "@" image_full)) in *.
    destruct (has "/" image_base) eqn:Hs.
    + exists (String "/" (last_part (split "/" image_base)) ++ String "@" rest).
      rewrite <- append_assoc, <- (split_at_last "/" image_base Hs). exact Heq.
    + eauto.
  - rewrite (parse_image_plain _ Hd); cbv zeta; simpl fst.
    destruct (has ":" image_full) eqn:Hc.
    + destruct (rsplit1_with ":" image_full Hc) as (a & b & -> & Heq & _).
      simpl. eauto.
    + rewrite (rsplit1_without ":" image_full Hc); simpl.
      exists "". rewrite append_empty; reflexivity.
Qed.

(** X8.  The image a run writes into the container section has no ["@"],
    so no digest, and is a prefix of the image reference of the state
    document. *)
Theorem written_image_is_clean_prefix slot state config t :
  main slot state config = (t, Ok tt) ->
  exists image_full out n m,
    get_default state "image" (VStr "") = Ok (VStr image_full) /\
    t = success_trace out n m /\
    forall container image,
      lookup "container" out = Some (VDict container) ->
      lookup "image" container = Some (VStr image) ->
      has "@" image = false /\ exists rest, image_full = image ++ rest.
Proof.
  intros H.
  apply main_written in H as (rb & items & libraries & s & _ & Hs & _ & _ & ->).
  exists s; eexists; eexists; eexists.
  split; [exact Hs|]. split; [reflexivity|].
  intros container image Hc Hi.
  rewrite output_container in Hc.
  destruct (truthy (VStr (fst (parse_image s)))); [|discriminate].
  injection Hc as <-. simpl in Hi. injection Hi as <-.
  split; [apply container_image_without_at|].
  destruct (parse_image_prefix s) as (r1 & H1).
  destruct (container_image_prefix (fst (parse_image s))) as (r2 & H2).
  exists (r2 ++ r1). rewrite <- append_assoc, <- H2. exact H1.
Qed.

Lemma written_image_is_clean_prefix_witness :
  exists image_full out n m,
    get_default (VDict [("image", VStr "ci@registry.example/tool:v2")]) "image"
      (VStr "") = Ok (VStr image_full) /\
    fst (main slot0 (VDict [("image", VStr "ci@registry.example/tool:v2")])
           sample_config)
    = success_trace out n m /\
    forall container image,
      lookup "container" out = Some (VDict container) ->
      lookup "image" container = Some (VStr image) ->
      has "@" image = false /\ exists rest, image_full = image ++ rest.
Proof.
  apply (written_image_is_clean_prefix slot0
           (VDict [("image", VStr "ci@registry.example/tool:v2")]) sample_config).
  vm_compute; reflexivity.
Defined.

(** ** Documents of the wrong shape *)

(** X9.  A config document that is no mapping, such as the [None] of an
    empty file, makes the run raise [AttributeError] before anything is
    done, whatever the state document; so does, once the set is built, a
    state document that is no mapping. *)
Theorem documents_must_be_mappings slot state config :
  (is_mapping config = false ->
   main slot state config = ([], Raise AttributeError)) /\
  (forall release_blocked,
     release_blocked_ids slot config = Ok release_blocked ->
     is_mapping state = false ->
     main slot state config = ([], Raise AttributeError)).
Proof.
  split.
  - intros Hc. rewrite main_assemble. unfold assemble.
    destruct config; try discriminate Hc; reflexivity.
  - intros rb Hrb Hs. rewrite main_assemble. unfold assemble.
    rewrite Hrb. destruct state; try discriminate Hs; reflexivity.
Qed.

Lemma documents_must_be_mappings_witness :
  main slot0 sample_state VNone = ([], Raise AttributeError) /\
  main slot0 (VList []) sample_config = ([], Raise AttributeError).
Proof.
  split.
  - apply (proj1 (documents_must_be_mappings slot0 sample_state VNone)).
    reflexivity.
  - apply (proj2 (documents_must_be_mappings slot0 (VList []) sample_config)
             [KStr "vertexai"; KStr "auth"]).
    + vm_compute; reflexivity.
    + reflexivity.
Defined.

Lemma convert_entry_string release_blocked s :
  convert_entry release_blocked (VStr s) = Raise TypeError.
Proof. reflexivity. Qed.

(** X10.  The default of [state.get('libraries', [])] stands for a missing
    key only.  When the key is there and its value is no list, the run
    raises [TypeError] and writes nothing, unless the value is an empty
    string or an empty mapping: so for [None], a number or a boolean, which
    cannot be iterated, and for a string or a mapping with members, whose
    members are strings and no records. *)
Theorem libraries_must_be_list slot state config release_blocked image_full v :
  release_blocked_ids slot config = Ok release_blocked ->
  get_default (VDict state) "image" (VStr "") = Ok (VStr image_full) ->
  lookup "libraries" state = Some v ->
  (forall l, v <> VList l) ->
  v <> VStr "" ->
  v <> VDict [] ->
  main slot (VDict state) config = ([], Raise TypeError).
Proof.
  intros Hrb Hi Hl Hlist Hstr Hdict.
  assert (Hg : get_default (VDict state) "libraries" (VList []) = Ok v)
    by (simpl; rewrite Hl; reflexivity).
  rewrite main_assemble. unfold assemble.
  rewrite Hrb, Hi, Hg; cbn -[for_each iterate].
  destruct v as [| | | |s|l|d]; try reflexivity.
  - destruct (chars_not_nil s) as (c & cs & Hc); [congruence|].
    cbn -[for_each chars]. rewrite Hc. reflexivity.
  - exfalso; apply (Hlist l); reflexivity.
  - destruct d as [|[k x] d]; [congruence|]. reflexivity.
Qed.

Lemma libraries_must_be_list_witness :
  main slot0 (VDict [("image", VStr "gcr.io/foo/bar:v2"); ("libraries", VNone)])
    sample_config
  = ([], Raise TypeError).
Proof.
  apply (libraries_must_be_list slot0
           [("image", VStr "gcr.io/foo/bar:v2"); ("libraries", VNone)]
           sample_config [KStr "vertexai"; KStr "auth"] "gcr.io/foo/bar:v2" VNone).
  - vm_compute; reflexivity.
  - reflexivity.
  - reflexivity.
  - intros l; discriminate.
  - discriminate.
  - discriminate.
Defined.

(** X11.  The default of [state.get('image', '')] stands for a missing key
    only.  When the key is there and its value is no string, the run raises
    and writes nothing: [AttributeError] for a list or a mapping,
    [TypeError] for [None], a number or a boolean.  When the key is missing
    or its value is the empty string, a run that ends well writes a
    document without container section. *)
Theorem image_must_be_string slot state config release_blocked :
  release_blocked_ids slot config = Ok release_blocked ->
  (forall v,
     lookup "image" state = Some v ->
     is_string v = false ->
     main slot (VDict state) config = ([], Raise (image_error v))) /\
  (lookup "image" state = None \/ lookup "image" state = Some (VStr "") ->
   forall t,
     main slot (VDict state) config = (t, Ok tt) ->
     exists out n m,
       t = success_trace out n m /\ lookup "container" out = None).
Proof.
  intros Hrb; split.
  - intros v Hl Hv.
    assert (Hg : get_default (VDict state) "image" (VStr "") = Ok v)
      by (simpl; rewrite Hl; reflexivity).
    rewrite main_assemble. unfold assemble. rewrite Hrb, Hg.
    destruct v; try discriminate Hv; reflexivity.
  - intros Hl t H.
    apply main_written in H as (rb & items & libraries & s & _ & Hs & _ & _ & ->).
    assert (s = "") as ->.
    { simpl in Hs. destruct Hl as [Hl|Hl]; rewrite Hl in Hs; congruence. }
    eexists; eexists; eexists. split; [reflexivity|].
    rewrite output_container. reflexivity.
Qed.

Lemma image_must_be_string_witness :
  main slot0 (VDict [("image", VNone); ("libraries", VList [])]) sample_config
  = ([], Raise TypeError) /\
  exists out n m,
    fst (main slot0 (VDict [("libraries", VList [])]) sample_config)
    = success_trace out n m /\
    lookup "container" out = None.
Proof.
  assert (Hrb : release_blocked_ids slot0 sample_config
                = Ok [KStr "vertexai"; KStr "auth"])
    by (vm_compute; reflexivity).
  split.
  - apply (proj1 (image_must_be_string slot0
                    [("image", VNone); ("libraries", VList [])]
                    sample_config _ Hrb) VNone); reflexivity.
  - apply (proj2 (image_must_be_string slot0 [("libraries", VList [])]
                    sample_config _ Hrb)).
    + left; reflexivity.
    + vm_compute; reflexivity.
Defined.

(** ** What a run reads and what its records look like *)

(** X12.  A run reads three fields: [image] and [libraries] of the state
    document and [libraries] of the config document.  Two pairs of documents
    that agree on them give the same run, effects and outcome, whatever else
    they hold. *)
Theorem main_reads_three_fields slot state state' config config' :
  lookup "image" state = lookup "image" state' ->
  lookup "libraries" state = lookup "libraries" state' ->
  lookup "libraries" config = lookup "libraries" config' ->
  main slot (VDict state) (VDict config) = main slot (VDict state') (VDict config').
Proof.
  intros Hi Hl Hc.
  unfold main, release_blocked_ids, get, get_default, getitem.
  rewrite Hi, Hl, Hc; reflexivity.
Qed.

Lemma main_reads_three_fields_witness :
  main slot0
    (VDict [("tag_format", VStr "{id}-{version}");
            ("image", VStr "gcr.io/foo/bar:v2");
            ("libraries", VList [VDict sample_library; VDict sample_bare])])
    (VDict [("global_files_allowlist", VList []);
            ("libraries",
             VList [VDict [("id", VStr "auth"); ("release_blocked", VBool true)];
                    VDict [("id", VStr "vertexai"); ("release_blocked", VBool true)];
                    VDict [("id", VStr "asset")]])])
  = main slot0 sample_state sample_config.
Proof.
  apply (main_reads_three_fields slot0); reflexivity.
Defined.

Lemma keys_dict_set_new k v d :
  lookup k d = None -> keys (dict_set k v d) = (keys d ++ [k])%list.
Proof.
  induction d as [|[k' v'] d IH]; simpl; [reflexivity|].
  destruct (String.eqb_spec k k') as [->|Hne]; [discriminate|].
  intros Hl. simpl; rewrite (IH Hl); reflexivity.
Qed.

Lemma convert_library_keys lib r :
  convert_library (VDict lib) = Ok r ->
  keys r = (["name"; "version"]
            ++ optional_key "generate" (kept (lookup "apis" lib)))%list.
Proof.
  intros H.
  apply convert_library_Ok in H as (id & Hid & [[Hk ->]|Hg]).
  - rewrite Hk; reflexivity.
  - destruct Hg as (apis & entries & Ha & Hne & _ & _ & ->).
    rewrite Ha; simpl. destruct apis; [contradiction | reflexivity].
Qed.

(** X13.  Every library record a run writes has the keys name, version,
    generate and _comment in this order: generate when the entry of the
    state document has APIs, _comment, always last, when the record is
    annotated. *)
Theorem library_record_keys slot state config t :
  main slot state config = (t, Ok tt) ->
  exists items libraries out n m,
    state_libraries state = Ok items /\
    t = success_trace out n m /\
    lookup "libraries" out = Some (VList (map VDict libraries)) /\
    Forall2
      (fun lib record =>
         keys record
         = (["name"; "version"]
            ++ optional_key "generate" (kept (field lib "apis"))
            ++ optional_key "_comment" (lookup "_comment" record))%list)
      items libraries.
Proof.
  intros H.
  apply main_libraries in H as (rb & items & libraries & out & _ & Hs & Hf & -> & Hl).
  exists items, libraries, out; eexists; eexists.
  split; [exact Hs|]. split; [reflexivity|]. split; [exact Hl|].
  apply for_each_Forall2 in Hf. clear Hs Hl.
  induction Hf as [|lib record items' libraries' Hc _ IH]; [constructor|].
  constructor; [|exact IH]. clear IH.
  unfold convert_entry in Hc.
  apply bind_Ok in Hc as (converted & Hconv & Hc).
  apply bind_Ok in Hc as (id & _ & Hc).
  apply bind_Ok in Hc as (blocked & _ & Hc).
  destruct (convert_library_shape lib converted Hconv) as (id' & Hid & _ & Hcm).
  destruct lib as [| | | | | |l]; try discriminate Hid.
  pose proof (convert_library_keys l converted Hconv) as Hk.
  simpl field.
  destruct blocked; injection Hc as <-.
  - rewrite (keys_dict_set_new _ _ _ Hcm), Hk, lookup_dict_set.
    destruct (kept (lookup "apis" l)); reflexivity.
  - rewrite Hcm, Hk.
    destruct (kept (lookup "apis" l)); reflexivity.
Qed.

Lemma library_record_keys_witness :
  exists items libraries out n m,
    state_libraries sample_state = Ok items /\
    fst (main slot0 sample_state sample_config) = success_trace out n m /\
    lookup "libraries" out = Some (VList (map VDict libraries)) /\
    Forall2
      (fun lib record =>
         keys record
         = (["name"; "version"]
            ++ optional_key "generate" (kept (field lib "apis"))
            ++ optional_key "_comment" (lookup "_comment" record))%list)
      items libraries.
Proof.
  apply (library_record_keys slot0 sample_state sample_config).
  vm_compute; reflexivity.
Defined.

(** X14.  A record [convert_library] returns is named by the identifier as
    it stands, whatever its type, and has the version as it stands, also
    when it is empty or zero (only a missing version becomes null): unlike
    [service_config], [preserve_regex] and [remove_regex], the version is
    not tested for truth. *)
Theorem name_and_version_verbatim lib r :
  convert_library (VDict lib) = Ok r ->
  lookup "name" r = lookup "id" lib /\
  lookup "version" r = Some (or_none (lookup "version" lib)).
Proof.
  intros H.
  apply convert_library_Ok in H as (id & Hid & [[_ ->]|Hg]).
  - rewrite Hid; split; reflexivity.
  - destruct Hg as (apis & entries & _ & _ & _ & _ & ->).
    rewrite Hid; split; reflexivity.
Qed.

Lemma name_and_version_verbatim_witness :
  exists r,
    convert_library (VDict [("id", VInt 7); ("version", VStr "")]) = Ok r /\
    lookup "name" r = Some (VInt 7) /\
    lookup "version" r = Some (VStr "").
Proof.
  eexists. split; [reflexivity|].
  apply (name_and_version_verbatim [("id", VInt 7); ("version", VStr "")]).
  reflexivity.
Defined.

(** X15.  The registry only annotates: every library record a run writes
    agrees with what [convert_library] returns for its entry on every key
    but _comment. *)
Theorem registry_only_annotates slot state config t :
  main slot state config = (t, Ok tt) ->
  exists items libraries out n m,
    state_libraries state = Ok items /\
    t = success_trace out n m /\
    lookup "libraries" out = Some (VList (map VDict libraries)) /\
    Forall2
      (fun lib record =>
         exists converted,
           convert_library lib = Ok converted /\
           forall k, k <> "_comment" -> lookup k record = lookup k converted)
      items libraries.
Proof.
  intros H.
  apply main_libraries in H as (rb & items & libraries & out & _ & Hs & Hf & -> & Hl).
  exists items, libraries, out; eexists; eexists.
  split; [exact Hs|]. split; [reflexivity|]. split; [exact Hl|].
  apply for_each_Forall2 in Hf. clear Hs Hl.
  induction Hf as [|lib record items' libraries' Hc _ IH]; [constructor|].
  constructor; [|exact IH]. clear IH.
  unfold convert_entry in Hc.
  apply bind_Ok in Hc as (converted & Hconv & Hc).
  apply bind_Ok in Hc as (id & _ & Hc).
  apply bind_Ok in Hc as (blocked & _ & Hc).
  exists converted. split; [exact Hconv|].
  intros k Hk. destruct blocked; injection Hc as <-; [|reflexivity].
  rewrite lookup_dict_set.
  destruct (String.eqb_spec k "_comment"); [contradiction | reflexivity].
Qed.

Lemma registry_only_annotates_witness :
  exists items libraries out n m,
    state_libraries sample_state = Ok items /\
    fst (main slot0 sample_state sample_config) = success_trace out n m /\
    lookup "libraries" out = Some (VList (map VDict libraries)) /\
    Forall2
      (fun lib record =>
         exists converted,
           convert_library lib = Ok converted /\
           forall k, k <> "_comment" -> lookup k record = lookup k converted)
      items libraries.
Proof.
  apply (registry_only_annotates slot0 sample_state sample_config).
  vm_compute; reflexivity.
Defined.
